(** * Tinkering Audio: envelopes, tone generators and the peaking filter

    A shallow embedding of [envelope.py], [tone.py] and [filter.py].

    Numbers.  Python floats are read as real numbers ([R]) with exact
    arithmetic; Python ints that stay ints (sample indices, samples,
    sampling rates, harmonic numbers) are [Z].  The rounding of IEEE
    doubles is outside this model.

    Failure.  A float division by zero raises [ZeroDivisionError] in
    Python and arithmetic on [None] raises [TypeError]; both are kept,
    in the [result] monad below.

    The sources are Python 2 ([xrange], [iterkeys]): [/] between two
    ints floors, [int] of a float truncates toward zero.

    Doubles.  Where a statement turns on the rounding of doubles, the
    arithmetic of [envelope.py] is embedded a second time, on binary64
    floats, in the module [Binary64]; it uses only [+], [-], [*], [/]
    and comparisons, which compute. *)

From Stdlib Require Import Reals Lra Lia ZArith List.
From Stdlib Require PrimFloat Uint63 FloatOps.
Import ListNotations.
Open Scope R_scope.

(** ** Python values, exceptions and conversions *)

Inductive PyExc : Type :=
| ZeroDivisionError
| TypeError
| UnboundLocalError
| AttributeError.

Inductive result (A : Type) : Type :=
| Ok (a : A)
| Raise (e : PyExc).

Arguments Ok {A} a.
Arguments Raise {A} e.

Definition bind {A B : Type} (c : result A) (k : A -> result B) : result B :=
  match c with
  | Ok a => k a
  | Raise e => Raise e
  end.

Notation "x <- c ;; k" := (bind c (fun x => k))
  (at level 61, c at next level, right associativity).
Notation "' pat <- c ;; k" := (bind c (fun x => match x with pat => k end))
  (at level 61, pat pattern, c at next level, right associativity).

(** What a Python expression can evaluate to where the code lets [None]
    through: [None] or a number. *)
Inductive pyobj : Type :=
| PyNone
| PyNum (x : R).

(** A Python number that is an [int] or a [float]; only [Filter.gain]
    needs the distinction (Python 2 [/] floors on two ints). *)
Inductive pynumber : Type :=
| PyInt (n : Z)
| PyFloat (x : R).

(** Using an object in arithmetic: [None] has no arithmetic. *)
Definition as_number (v : pyobj) : result R :=
  match v with
  | PyNum x => Ok x
  | PyNone => Raise TypeError
  end.

(** [x / y] on floats. *)
Definition float_div (x y : R) : result R :=
  if Req_dec_T y 0 then Raise ZeroDivisionError else Ok (x / y).

(** [int(x)] on a float: truncation toward zero. *)
Definition py_int (x : R) : Z :=
  if Rle_dec 0 x then Int_part x else (- Int_part (- x))%Z.

(** Python 2 [round(x)]: to the nearest integer, halves away from zero.
    The code never calls it; the specification's formulas do. *)
Definition py_round (x : R) : Z :=
  if Rle_dec 0 x then Int_part (x + / 2) else (- Int_part (- x + / 2))%Z.

(** ** envelope.py *)

Module EnvelopePhase.
Inductive t : Type := attack | decay | sustain | release.
End EnvelopePhase.

Module EnvelopeType.
Inductive t : Type := amplitude | frequency.
End EnvelopeType.

Module Envelope.

Record t : Type := {
  type : EnvelopeType.t;
  attack_length : R;
  decay_length : R;
  sustain_level : R;
  sustain_length : R;
  release_length : R
}.

(** [Envelope.get_phase]: the first boundary the index is strictly below;
    falling off the end of the function returns [None]. *)
Definition get_phase (self : t) (sample_index : Z) (number_of_samples : R)
  : option EnvelopePhase.t :=
  let attack_end := attack_length self * number_of_samples in
  let decay_end := attack_end + decay_length self * number_of_samples in
  let sustain_end := decay_end + sustain_length self * number_of_samples in
  let release_end := sustain_end + release_length self * number_of_samples in
  if Rlt_dec (IZR sample_index) attack_end then Some EnvelopePhase.attack
  else if Rlt_dec (IZR sample_index) decay_end then Some EnvelopePhase.decay
  else if Rlt_dec (IZR sample_index) sustain_end then Some EnvelopePhase.sustain
  else if Rlt_dec (IZR sample_index) release_end then Some EnvelopePhase.release
  else None.

(** [Envelope.get_frequency_sustain_level]. *)
Definition get_frequency_sustain_level (self : t) (default_frequency : R) : R :=
  if Req_dec_T (sustain_level self) 0 then default_frequency
  else
    let INTERVAL := Rpower 2 (1 / 12) in
    default_frequency * Rpower INTERVAL (sustain_level self).

(** Lines 43-49 of [get_value]: the sustain level the phases aim at. *)
Definition resolved_sustain_level (self : t) (default_value : R) : R :=
  match type self with
  | EnvelopeType.amplitude =>
      if Req_dec_T (sustain_level self) 0 then default_value
      else sustain_level self
  | EnvelopeType.frequency => get_frequency_sustain_level self default_value
  end.

(** [Envelope.get_value].  No [if phase == ...] matches when [get_phase]
    returned [None], and the function then returns [None] itself. *)
Definition get_value (self : t) (default_value : R) (sample_index : Z)
    (number_of_samples : R) : result pyobj :=
  let attack_length := attack_length self * number_of_samples in
  let decay_length := decay_length self * number_of_samples in
  let sustain_length := sustain_length self * number_of_samples in
  let release_length := release_length self * number_of_samples in
  let decay_start := attack_length in
  let release_start := attack_length + decay_length + sustain_length in
  let phase := get_phase self sample_index number_of_samples in
  let sustain_level := resolved_sustain_level self default_value in
  match phase with
  | Some EnvelopePhase.attack =>
      envelope <- float_div (IZR sample_index) attack_length ;;
      let new_value := default_value * envelope in
      match type self with
      | EnvelopeType.frequency =>
          if Req_dec_T new_value 0 then Ok (PyNum 1) else Ok (PyNum new_value)
      | EnvelopeType.amplitude => Ok (PyNum new_value)
      end
  | Some EnvelopePhase.decay =>
      ratio <- float_div (IZR sample_index - decay_start) decay_length ;;
      let envelope := 1 - ratio in
      let new_value := default_value * envelope in
      if Rlt_dec new_value sustain_level then Ok (PyNum sustain_level)
      else Ok (PyNum new_value)
  | Some EnvelopePhase.sustain =>
      let new_value := sustain_level in
      Ok (PyNum new_value)
  | Some EnvelopePhase.release =>
      ratio <- float_div (IZR sample_index - release_start) release_length ;;
      let envelope := 1 - ratio in
      let new_value := envelope * sustain_level in
      Ok (PyNum new_value)
  | None => Ok PyNone
  end.

(** The data model's envelope: every proportion is a fraction in [0, 1]. *)
Definition well_formed (self : t) : Prop :=
  0 <= attack_length self <= 1 /\
  0 <= decay_length self <= 1 /\
  0 <= sustain_length self <= 1 /\
  0 <= release_length self <= 1.

End Envelope.

(** ** sound.py *)

Module Sound.

(** Modelled from the spec: [sound.py] is imported by [tone.py] and its
    objects are passed to [Filter.__init__], but the module is not among
    the sources.  The external interfaces give the buffer a sampling
    rate (samples per second) and a conversion from seconds to an
    integer sample count; both are taken as given, whatever they are. *)
Record t : Type := {
  sampling_rate : Z;
  convert_secs_to_samples : R -> Z
}.

End Sound.

(** [xrange(start, stop)]. *)
Definition xrange (start stop : Z) : list Z :=
  map (fun k => (start + Z.of_nat k)%Z) (seq 0 (Z.to_nat (stop - start))).

(** The state of Python's global random generator: the values that the
    coming calls of [random.uniform(0, 1)] return. *)
Definition RandomState : Type := nat -> R.

Definition random_uniform (st : RandomState) : R * RandomState :=
  (st 0%nat, fun n => st (S n)).

(** ** tone.py *)

Module Tone.

Record t : Type := {
  note : R;
  amplitude : R;
  seconds : R;
  amplitude_env : option Envelope.t;
  frequency_env : option Envelope.t
}.

(** [Tone.__convert_note_to_freq]. *)
Definition __convert_note_to_freq (note : R) : R :=
  let BASE_FREQUENCY := 440 in
  let INTERVAL := Rpower 2 (1 / 12) in
  BASE_FREQUENCY * Rpower INTERVAL note.

(** The [frequency] property: the [note] setter stores the converted
    note, and nothing in these sources assigns it afterwards. *)
Definition frequency (self : t) : R := __convert_note_to_freq (note self).

(** [Tone._get_amplitude]. *)
Definition _get_amplitude (self : t) (sampling_rate sample_index : Z)
  : result pyobj :=
  match amplitude_env self with
  | Some env =>
      Envelope.get_value env (amplitude self) sample_index
        (seconds self * IZR sampling_rate)
  | None => Ok (PyNum (amplitude self))
  end.

(** [Tone._get_frequency]. *)
Definition _get_frequency (self : t) (sampling_rate sample_index : Z)
  : result pyobj :=
  match frequency_env self with
  | Some env =>
      Envelope.get_value env (frequency self) sample_index
        (seconds self * IZR sampling_rate)
  | None => Ok (PyNum (frequency self))
  end.

(** [Tone._get_sine_value]: the pair (sine value, phase). *)
Definition _get_sine_value (self : t) (sampling_rate sample_index : Z)
    (previous_phase : pyobj) : result (R * R) :=
  frequency_obj <- _get_frequency self sampling_rate sample_index ;;
  frequency <- as_number frequency_obj ;;
  seconds_per_cycle <- float_div 1 frequency ;;
  let samples_per_cycle := seconds_per_cycle * IZR sampling_rate in
  let cycle_size := 2 * PI in
  phase_increment <- float_div cycle_size samples_per_cycle ;;
  previous <- as_number previous_phase ;;
  let phase := previous + phase_increment in
  let sine_value := sin phase in
  Ok (sine_value, phase).

End Tone.

(** The one method the subclasses of [Tone] override, with what
    [Tone.__generate] reads from [self].  A sample is created in the
    state of the random generator, which only [Noise] advances. *)
Class ToneClass (T : Type) : Type := {
  seconds : T -> R;
  _create_sample :
    T -> Z -> Z -> pyobj -> RandomState -> result (Z * pyobj * RandomState)
}.

Section Generate.

Context {T : Type} `{ToneClass T}.

(** The loop of [Tone.__generate] over the remaining indices.  The
    generator yields each sample as soon as it is made, so the samples
    made before an exception have been handed over: the result is the
    samples yielded, the exception that ended the run if any, and the
    random state left. *)
Fixpoint generate_from (self : T) (sampling_rate : Z) (indices : list Z)
    (previous_phase : pyobj) (st : RandomState)
  : list Z * option PyExc * RandomState :=
  match indices with
  | [] => ([], None, st)
  | i :: rest =>
      match _create_sample self sampling_rate i previous_phase st with
      | Raise e => ([], Some e, st)
      | Ok (sample, phase, st') =>
          let '(samples, exc, st'') :=
            generate_from self sampling_rate rest phase st' in
          (sample :: samples, exc, st'')
      end
  end.

(** [Tone.__generate]. *)
Definition __generate (self : T) (sound : Sound.t) (st : RandomState)
  : list Z * option PyExc * RandomState :=
  let sample_count := Sound.convert_secs_to_samples sound (seconds self) in
  let previous_phase := PyNum 0 in
  generate_from self (Sound.sampling_rate sound) (xrange 0 sample_count)
    previous_phase st.

End Generate.

Module SineTone.

Record t : Type := { tone : Tone.t }.

(** [SineTone._create_sample]. *)
Definition _create_sample (self : t) (sampling_rate sample_index : Z)
    (previous_phase : pyobj) : result (Z * R) :=
  amplitude_obj <- Tone._get_amplitude (tone self) sampling_rate sample_index ;;
  ' (sine_value, phase) <-
    Tone._get_sine_value (tone self) sampling_rate sample_index previous_phase ;;
  amplitude <- as_number amplitude_obj ;;
  let sample := py_int (sine_value * amplitude) in
  Ok (sample, phase).

#[global] Instance tone_class : ToneClass t :=
  Build_ToneClass t
    (fun self => Tone.seconds (tone self))
    (fun self sampling_rate sample_index previous_phase st =>
       ' (sample, phase) <-
         _create_sample self sampling_rate sample_index previous_phase ;;
       Ok (sample, PyNum phase, st)).

End SineTone.

Module HarmonicSawTone.

Record t : Type := { tone : Tone.t; levels : Z }.

(** The body of the [for i in xrange(1, self.levels + 1)] loop, over the
    harmonic numbers still to come.  The loop variables are [sample],
    [frequency] and [phase]; [phase] is unbound until the body has run
    once.  [frequency] is advanced and never read. *)
Fixpoint harmonics_loop (self : t) (sampling_rate sample_index : Z)
    (previous_phase : pyobj) (harmonics : list Z)
    (sample : Z) (frequency : R) (phase : option R)
  : result (Z * R * option R) :=
  match harmonics with
  | [] => Ok (sample, frequency, phase)
  | i :: rest =>
      amplitude_obj <-
        Tone._get_amplitude (tone self) sampling_rate sample_index ;;
      amplitude_float <- as_number amplitude_obj ;;
      amplitude <- float_div amplitude_float (IZR i) ;;
      ' (sine_value, phase') <-
        Tone._get_sine_value (tone self) sampling_rate sample_index
          previous_phase ;;
      let sample := (sample + py_int (sine_value * amplitude))%Z in
      let frequency := frequency + Tone.frequency (tone self) in
      harmonics_loop self sampling_rate sample_index previous_phase rest
        sample frequency (Some phase')
  end.

(** [HarmonicSawTone._create_sample]. *)
Definition _create_sample (self : t) (sampling_rate sample_index : Z)
    (previous_phase : pyobj) : result (Z * R) :=
  let sample := 0%Z in
  let frequency := Tone.frequency (tone self) in
  ' (sample, _, phase) <-
    harmonics_loop self sampling_rate sample_index previous_phase
      (xrange 1 (levels self + 1)) sample frequency None ;;
  match phase with
  | Some phase => Ok (sample, phase)
  | None => Raise UnboundLocalError
  end.

#[global] Instance tone_class : ToneClass t :=
  Build_ToneClass t
    (fun self => Tone.seconds (tone self))
    (fun self sampling_rate sample_index previous_phase st =>
       ' (sample, phase) <-
         _create_sample self sampling_rate sample_index previous_phase ;;
       Ok (sample, PyNum phase, st)).

End HarmonicSawTone.

Module Noise.

(** [Noise] takes every field of [Tone]; its [note] may be [None], and
    the [note] setter leaves a [Noise] without a frequency. *)
Record t : Type := {
  note : pyobj;
  amplitude : R;
  seconds : R;
  amplitude_env : option Envelope.t;
  frequency_env : option Envelope.t
}.

(** [Noise._create_sample]: returns [None] in place of the phase. *)
Definition _create_sample (self : t) (sampling_rate sample_index : Z)
    (previous_phase : pyobj) (st : RandomState) : Z * pyobj * RandomState :=
  let '(raw_sample, st') := random_uniform st in
  let amplitude := amplitude self in
  let sample := py_int (raw_sample * amplitude) in
  (sample, PyNone, st').

#[global] Instance tone_class : ToneClass t :=
  Build_ToneClass t seconds
    (fun self sampling_rate sample_index previous_phase st =>
       Ok (_create_sample self sampling_rate sample_index previous_phase st)).

End Noise.

(** [math.copysign(x, y)]: the magnitude of [x] with the sign of [y]
    (the code calls it on a [y] that is not 0). *)
Definition copysign (x y : R) : R :=
  if Rlt_dec y 0 then - Rabs x else Rabs x.

Module SquareTone.

Record t : Type := { tone : Tone.t }.

(** [SquareTone._create_sample]: the sine value is read before the
    amplitude, and the amplitude is used only where the sine is not 0. *)
Definition _create_sample (self : t) (sampling_rate sample_index : Z)
    (previous_phase : pyobj) : result (Z * R) :=
  ' (sine_value, phase) <-
    Tone._get_sine_value (tone self) sampling_rate sample_index previous_phase ;;
  amplitude_obj <- Tone._get_amplitude (tone self) sampling_rate sample_index ;;
  if Req_dec_T sine_value 0 then
    let sample := 0%Z in
    Ok (sample, phase)
  else
    amplitude <- as_number amplitude_obj ;;
    let sample := py_int (amplitude * copysign 1 sine_value) in
    Ok (sample, phase).

#[global] Instance tone_class : ToneClass t :=
  Build_ToneClass t
    (fun self => Tone.seconds (tone self))
    (fun self sampling_rate sample_index previous_phase st =>
       ' (sample, phase) <-
         _create_sample self sampling_rate sample_index previous_phase ;;
       Ok (sample, PyNum phase, st)).

End SquareTone.

(** The operations of the sound's sample buffer that [add_tone] and
    [combine_tone] call: [len(sound.samples)], [sound.add_sample] and
    [sound.combine_sample_at_index].  [sound.py] is not among the
    sources, so they are parameters. *)
Class SoundBuffer (B : Type) : Type := {
  samples_length : B -> Z;
  add_sample : B -> Z -> B;
  combine_sample_at_index : B -> Z -> Z -> B
}.

Section AttachTone.

Context {T : Type} `{ToneClass T} {B : Type} `{SoundBuffer B}.

(** [Tone.add_tone]: every sample the generator yields is appended; the
    samples yielded before an exception have been appended when it
    arrives. *)
Definition add_tone (self : T) (sound : Sound.t) (buffer : B)
    (st : RandomState) : B * option PyExc * RandomState :=
  let '(samples, exc, st') := __generate self sound st in
  (fold_left add_sample samples buffer, exc, st').

(** The loop of [Tone.combine_tone] over the samples yielded. *)
Fixpoint combine_loop (samples : list Z) (buffer : B) (index : Z) : B :=
  match samples with
  | [] => buffer
  | sample :: rest =>
      let buffer :=
        if (index <? samples_length buffer)%Z
        then combine_sample_at_index buffer sample index
        else add_sample buffer sample in
      combine_loop rest buffer (index + 1)
  end.

(** [Tone.combine_tone]. *)
Definition combine_tone (self : T) (sound : Sound.t) (buffer : B)
    (start_position : R) (st : RandomState)
  : B * option PyExc * RandomState :=
  let index := Sound.convert_secs_to_samples sound start_position in
  let '(samples, exc, st') := __generate self sound st in
  (combine_loop samples buffer index, exc, st').

End AttachTone.

(** ** filter.py *)

Module Filter.

(** The [memory] dict: its four keys are fixed at construction. *)
Record Memory : Type := {
  previous_input : Z;
  second_previous_input : Z;
  previous_output : Z;
  second_previous_output : Z
}.

(** The attributes [a0], [a1], [a2], [b0], [b1], [b2]. *)
Record Coefficients : Type := {
  a0 : R; a1 : R; a2 : R;
  b0 : R; b1 : R; b2 : R
}.

(** A filter object.  The coefficient attributes do not exist until
    [_recalculate_coefficients] has assigned them.  [center_frequency]
    holds whatever the envelope returned, [None] included. *)
Record t : Type := {
  sampling_rate : Z;
  gain : pynumber;
  starting_frequency : R;
  center_frequency : pyobj;
  bandwidth : R;
  envelope : option Envelope.t;
  memory : Memory;
  sample_number : Z;
  coefficients : option Coefficients
}.

(** [Filter.__init__]; the [starting_frequency] setter also sets
    [center_frequency]. *)
Definition __init__ (sound : Sound.t) (starting_frequency bandwidth : R)
    (gain : pynumber) (envelope : option Envelope.t) : t :=
  {| sampling_rate := Sound.sampling_rate sound;
     gain := gain;
     starting_frequency := starting_frequency;
     center_frequency := PyNum starting_frequency;
     bandwidth := bandwidth;
     envelope := envelope;
     memory := {| previous_input := 0; second_previous_input := 0;
                  previous_output := 0; second_previous_output := 0 |};
     sample_number := 0;
     coefficients := None |}.

Definition set_center_frequency (self : t) (value : pyobj) : t :=
  {| sampling_rate := sampling_rate self;
     gain := gain self;
     starting_frequency := starting_frequency self;
     center_frequency := value;
     bandwidth := bandwidth self;
     envelope := envelope self;
     memory := memory self;
     sample_number := sample_number self;
     coefficients := coefficients self |}.

Definition set_coefficients (self : t) (value : Coefficients) : t :=
  {| sampling_rate := sampling_rate self;
     gain := gain self;
     starting_frequency := starting_frequency self;
     center_frequency := center_frequency self;
     bandwidth := bandwidth self;
     envelope := envelope self;
     memory := memory self;
     sample_number := sample_number self;
     coefficients := Some value |}.

(** The [A] property, [10 ** (float(self.gain/40))]: the division is
    done before the conversion, so an int gain is floor-divided. *)
Definition A (self : t) : R :=
  let exponent :=
    match gain self with
    | PyInt n => IZR (n / 40)
    | PyFloat x => x / 40
    end in
  Rpower 10 exponent.

(** The [w0] property. *)
Definition w0 (self : t) : result R :=
  center <- as_number (center_frequency self) ;;
  float_div (2 * PI * center) (IZR (sampling_rate self)).

Definition w0_cosine (self : t) : result R :=
  w <- w0 self ;; Ok (cos w).

Definition w0_sine (self : t) : result R :=
  w <- w0 self ;; Ok (sin w).

(** The [alpha] property. *)
Definition alpha (self : t) : result R :=
  sine <- w0_sine self ;;
  w <- w0 self ;;
  divisor <- w0_sine self ;;
  argument <- float_div (ln 2 / 2 * bandwidth self * w) divisor ;;
  Ok (sine * sinh argument).

(** [Filter._recalculate_coefficients] of the base class: [pass]. *)
Definition _recalculate_coefficients (self : t) : result t := Ok self.

(** [Filter.process], for the [_recalculate_coefficients] of the class of
    [self].  Returns the new sample and the filter as the call leaves it. *)
Definition process (_recalculate_coefficients : t -> result t)
    (self : t) (orig_sample : Z) (sample_total : R) : result (Z * t) :=
  self <- _recalculate_coefficients self ;;
  self <-
    match envelope self with
    | Some env =>
        value <- Envelope.get_value env (starting_frequency self)
                   (sample_number self) sample_total ;;
        Ok (set_center_frequency self value)
    | None => Ok self
    end ;;
  c <- match coefficients self with
       | Some c => Ok c
       | None => Raise AttributeError
       end ;;
  let m := memory self in
  let new_sample :=
    py_int (b0 c * IZR orig_sample + b1 c * IZR (previous_input m) +
            b2 c * IZR (second_previous_input m) -
            a1 c * IZR (previous_output m) -
            a2 c * IZR (second_previous_output m)) in
  let m := {| second_previous_input := previous_input m;
              previous_input := orig_sample;
              second_previous_output := previous_output m;
              previous_output := new_sample |} in
  Ok (new_sample,
      {| sampling_rate := sampling_rate self;
         gain := gain self;
         starting_frequency := starting_frequency self;
         center_frequency := center_frequency self;
         bandwidth := bandwidth self;
         envelope := envelope self;
         memory := m;
         sample_number := sample_number self + 1;
         coefficients := coefficients self |}).

(** [Filter.reset_memory]. *)
Definition reset_memory (self : t) : t :=
  {| sampling_rate := sampling_rate self;
     gain := gain self;
     starting_frequency := starting_frequency self;
     center_frequency := center_frequency self;
     bandwidth := bandwidth self;
     envelope := envelope self;
     memory := {| previous_input := 0; second_previous_input := 0;
                  previous_output := 0; second_previous_output := 0 |};
     sample_number := sample_number self;
     coefficients := coefficients self |}.

End Filter.

Module Peaking.

(** The right-hand sides of [Peaking._recalculate_coefficients], in the
    order of the assignments. *)
Definition peaking_coefficients (self : Filter.t) : result Filter.Coefficients :=
  let A := Filter.A self in
  alpha <- Filter.alpha self ;;
  q <- float_div alpha A ;;
  let a0 := 1 + q in
  cosine <- Filter.w0_cosine self ;;
  a1 <- float_div (-2 * cosine) a0 ;;
  alpha <- Filter.alpha self ;;
  q <- float_div alpha A ;;
  a2 <- float_div (1 - q) a0 ;;
  alpha <- Filter.alpha self ;;
  b0 <- float_div (1 + alpha * A) a0 ;;
  cosine <- Filter.w0_cosine self ;;
  b1 <- float_div (-2 * cosine) a0 ;;
  alpha <- Filter.alpha self ;;
  b2 <- float_div (1 - alpha * A) a0 ;;
  Ok {| Filter.a0 := a0; Filter.a1 := a1; Filter.a2 := a2;
        Filter.b0 := b0; Filter.b1 := b1; Filter.b2 := b2 |}.

(** [Peaking._recalculate_coefficients]. *)
Definition _recalculate_coefficients (self : Filter.t) : result Filter.t :=
  c <- peaking_coefficients self ;;
  Ok (Filter.set_coefficients self c).

(** [process] as a [Peaking] object runs it. *)
Definition process (self : Filter.t) (orig_sample : Z) (sample_total : R)
  : result (Z * Filter.t) :=
  Filter.process _recalculate_coefficients self orig_sample sample_total.

(** Feeding a stream of samples through [process], one call per sample,
    as a caller filtering a sound does. *)
Fixpoint process_all (self : Filter.t) (samples : list Z) (sample_total : R)
  : result (list Z * Filter.t) :=
  match samples with
  | [] => Ok ([], self)
  | x :: rest =>
      ' (y, self) <- process self x sample_total ;;
      ' (ys, self) <- process_all self rest sample_total ;;
      Ok (y :: ys, self)
  end.

End Peaking.

(** ** The specification's formulas

    Definitions that follow the words of the specification, to be set
    against the methods above. *)

Module SineSpec.

(** "Sine: sample = round(sin(phase) · amplitude_i)". *)
Definition sample (phase amplitude_i : R) : Z :=
  py_round (sin phase * amplitude_i).

End SineSpec.

Module HarmonicSawSpec.

(** "phase_increment = 2π / (sampling_rate / frequency_i)". *)
Definition phase_increment (frequency : R) (sampling_rate : Z) : R :=
  2 * PI / (IZR sampling_rate / frequency).

(** "each harmonic advances phase independently using its own multiple
    of the fundamental frequency": harmonic [k] has its own previous
    phase and moves by the increment of [k] times the fundamental. *)
Definition phase (frequency : R) (sampling_rate : Z)
    (previous_phases : nat -> R) (k : nat) : R :=
  previous_phases k + phase_increment (INR k * frequency) sampling_rate.

(** "sample = round(Σ_{k=1}^{levels} sin(phase_k) · amplitude_i/k)". *)
Definition sample (levels : nat) (amplitude_i frequency : R)
    (sampling_rate : Z) (previous_phases : nat -> R) : Z :=
  py_round
    (fold_right Rplus 0
       (map (fun k => sin (phase frequency sampling_rate previous_phases k)
                      * (amplitude_i / INR k))
            (seq 1 levels))).

End HarmonicSawSpec.

(** ** Forms used in the statements *)

(** The four boundaries that [get_phase] compares the index with. *)
Definition attack_end (self : Envelope.t) (number_of_samples : R) : R :=
  Envelope.attack_length self * number_of_samples.

Definition decay_end (self : Envelope.t) (number_of_samples : R) : R :=
  attack_end self number_of_samples +
  Envelope.decay_length self * number_of_samples.

Definition sustain_end (self : Envelope.t) (number_of_samples : R) : R :=
  decay_end self number_of_samples +
  Envelope.sustain_length self * number_of_samples.

Definition release_end (self : Envelope.t) (number_of_samples : R) : R :=
  sustain_end self number_of_samples +
  Envelope.release_length self * number_of_samples.

(** What the harmonic loop adds up: one truncated term per harmonic
    number, all of them scaling the same sine value. *)
Definition harmonic_terms (sine_value amplitude_i : R) (harmonics : list Z) : Z :=
  fold_right Z.add 0%Z
    (map (fun k => py_int (sine_value * (amplitude_i / IZR k))) harmonics).

(** Two calls of [_create_sample] that hand over the same sample and
    phase, or both raise. *)
Definition same_step {A : Type} (r1 r2 : result A) : Prop :=
  match r1, r2 with
  | Ok a1, Ok a2 => a1 = a2
  | Raise _, Raise _ => True
  | _, _ => False
  end.

(** The six right-hand sides of [Peaking._recalculate_coefficients] for
    an angular frequency [w], a bandwidth and a linear gain [A]. *)
Definition peaking_formula (w bandwidth A : R) : Filter.Coefficients :=
  let alpha := sin w * sinh (ln 2 / 2 * bandwidth * w / sin w) in
  let a0 := 1 + alpha / A in
  {| Filter.a0 := a0;
     Filter.a1 := -2 * cos w / a0;
     Filter.a2 := (1 - alpha / A) / a0;
     Filter.b0 := (1 + alpha * A) / a0;
     Filter.b1 := -2 * cos w / a0;
     Filter.b2 := (1 - alpha * A) / a0 |}.

(** A gain of 0 dB, given as an int or as a float. *)
Definition zero_gain (g : pynumber) : Prop :=
  g = PyInt 0 \/ g = PyFloat 0.

(** ** Objects the statements are tried on *)

(** An amplitude envelope with no attack at all: decay over the first
    half, sustain over the next quarter, release over the last. *)
Definition envelope_without_attack : Envelope.t :=
  {| Envelope.type := EnvelopeType.amplitude;
     Envelope.attack_length := 0;
     Envelope.decay_length := 1 / 2;
     Envelope.sustain_level := 0;
     Envelope.sustain_length := 1 / 4;
     Envelope.release_length := 1 / 4 |}.

(** A frequency envelope: attack over the first half, then sustain. *)
Definition frequency_sweep : Envelope.t :=
  {| Envelope.type := EnvelopeType.frequency;
     Envelope.attack_length := 1 / 2;
     Envelope.decay_length := 0;
     Envelope.sustain_level := 0;
     Envelope.sustain_length := 1 / 2;
     Envelope.release_length := 0 |}.

(** An amplitude envelope that sustains at 3/4 for the whole sound. *)
Definition sustained_amplitude : Envelope.t :=
  {| Envelope.type := EnvelopeType.amplitude;
     Envelope.attack_length := 0;
     Envelope.decay_length := 0;
     Envelope.sustain_level := 3 / 4;
     Envelope.sustain_length := 1;
     Envelope.release_length := 0 |}.

(** One second of the A above middle C, amplitude 1 under the envelope
    above. *)
Definition sine_sustained : SineTone.t :=
  {| SineTone.tone :=
       {| Tone.note := 0; Tone.amplitude := 1; Tone.seconds := 1;
          Tone.amplitude_env := Some sustained_amplitude;
          Tone.frequency_env := None |} |}.

(** The same note with amplitude 10, two harmonic levels, no envelope. *)
Definition saw_two_levels : HarmonicSawTone.t :=
  {| HarmonicSawTone.tone :=
       {| Tone.note := 0; Tone.amplitude := 10; Tone.seconds := 1;
          Tone.amplitude_env := None;
          Tone.frequency_env := None |};
     HarmonicSawTone.levels := 2 |}.

(** A sound at 8000 samples per second. *)
Definition sound_8000 : Sound.t :=
  {| Sound.sampling_rate := 8000;
     Sound.convert_secs_to_samples := fun secs => py_int (secs * 8000) |}.

(** A 0 dB peaking filter at 2000 Hz, one octave wide. *)
Definition plain_filter : Filter.t :=
  Filter.__init__ sound_8000 2000 1 (PyInt 0) None.

(** The same filter with its centre swept by [frequency_sweep]. *)
Definition swept_filter : Filter.t :=
  Filter.__init__ sound_8000 2000 1 (PyInt 0) (Some frequency_sweep).

(** The same filter centred at 0 Hz. *)
Definition filter_at_zero_hertz : Filter.t :=
  Filter.__init__ sound_8000 0 1 (PyInt 0) None.

(** ** envelope.py on binary64 floats *)

Module Binary64.

Import PrimFloat.
Local Open Scope float_scope.

(** A Python int where the arithmetic wants a float: the conversion is
    exact for magnitudes up to 2^53 and rounds to nearest above. *)
Definition of_int (z : Z) : float :=
  match z with
  | Z0 => 0
  | Zpos _ => of_uint63 (Uint63.of_Z z)
  | Zneg p => - of_uint63 (Uint63.of_Z (Zpos p))
  end.

(** [x / y] on floats: a divisor equal to zero, of either sign, raises. *)
Definition float_div (x y : float) : result float :=
  if y =? 0 then Raise ZeroDivisionError else Ok (x / y).

Record Envelope : Type := {
  type : EnvelopeType.t;
  attack_length : float;
  decay_length : float;
  sustain_level : float;
  sustain_length : float;
  release_length : float
}.

(** [Envelope.get_phase]; the int index is compared with each float
    boundary. *)
Definition get_phase (self : Envelope) (sample_index : Z)
    (number_of_samples : float) : option EnvelopePhase.t :=
  let attack_end := attack_length self * number_of_samples in
  let decay_end := attack_end + decay_length self * number_of_samples in
  let sustain_end := decay_end + sustain_length self * number_of_samples in
  let release_end := sustain_end + release_length self * number_of_samples in
  if of_int sample_index <? attack_end then Some EnvelopePhase.attack
  else if of_int sample_index <? decay_end then Some EnvelopePhase.decay
  else if of_int sample_index <? sustain_end then Some EnvelopePhase.sustain
  else if of_int sample_index <? release_end then Some EnvelopePhase.release
  else None.

Section Pow.

(** The float power [x ** y] of the C library, which does not compute
    here; only a frequency envelope with a sustain level other than 0
    calls it. *)
Variable pow : float -> float -> float.

(** [Envelope.get_frequency_sustain_level]. *)
Definition get_frequency_sustain_level (self : Envelope)
    (default_frequency : float) : float :=
  if sustain_level self =? 0 then default_frequency
  else
    let INTERVAL := pow 2 (1 / 12) in
    default_frequency * pow INTERVAL (sustain_level self).

(** [Envelope.get_value]; [None] is Python's [None]. *)
Definition get_value (self : Envelope) (default_value : float)
    (sample_index : Z) (number_of_samples : float) : result (option float) :=
  let attack_length := attack_length self * number_of_samples in
  let decay_length := decay_length self * number_of_samples in
  let sustain_length := sustain_length self * number_of_samples in
  let release_length := release_length self * number_of_samples in
  let decay_start := attack_length in
  let release_start := attack_length + decay_length + sustain_length in
  let phase := get_phase self sample_index number_of_samples in
  let sustain_level :=
    match type self with
    | EnvelopeType.amplitude =>
        if sustain_level self =? 0 then default_value else sustain_level self
    | EnvelopeType.frequency => get_frequency_sustain_level self default_value
    end in
  match phase with
  | Some EnvelopePhase.attack =>
      envelope <- float_div (of_int sample_index) attack_length ;;
      let new_value := default_value * envelope in
      match type self with
      | EnvelopeType.frequency =>
          if new_value =? 0 then Ok (Some 1) else Ok (Some new_value)
      | EnvelopeType.amplitude => Ok (Some new_value)
      end
  | Some EnvelopePhase.decay =>
      ratio <- float_div (of_int sample_index - decay_start) decay_length ;;
      let envelope := 1 - ratio in
      let new_value := default_value * envelope in
      if new_value <? sustain_level then Ok (Some sustain_level)
      else Ok (Some new_value)
  | Some EnvelopePhase.sustain =>
      let new_value := sustain_level in
      Ok (Some new_value)
  | Some EnvelopePhase.release =>
      ratio <- float_div (of_int sample_index - release_start) release_length ;;
      let envelope := 1 - ratio in
      let new_value := envelope * sustain_level in
      Ok (Some new_value)
  | None => Ok None
  end.

End Pow.

(** The doubles nearest to 0.3 and 0.1. *)
Definition three_tenths : float := 0x1.3333333333333p-2.
Definition one_tenth : float := 0x1.999999999999ap-4.

(** An amplitude envelope with proportions 0.3, 0.3, 0.3 and 0.1. *)
Definition envelope_3_3_3_1 : Envelope :=
  {| type := EnvelopeType.amplitude;
     attack_length := three_tenths;
     decay_length := three_tenths;
     sustain_level := 0;
     sustain_length := three_tenths;
     release_length := one_tenth |}.

(** The release end as the claim writes it, "(attack + decay +
    sustain_length + release) * number_of_samples", on floats. *)
Definition claimed_release_end (self : Envelope) (number_of_samples : float)
  : float :=
  (attack_length self + decay_length self + sustain_length self
   + release_length self) * number_of_samples.

(** 1000 units in the last place of 1: what is left of the base value
    100 at the index where the release end was rounded up. *)
Definition release_residue : float := 0x1.f4p-44.

End Binary64.

(** ** Further forms and objects *)

(** Two filters that agree on everything [process] reads, their gains
    aside, and have the same linear gain [A]. *)
Definition same_response (f g : Filter.t) : Prop :=
  Filter.center_frequency f = Filter.center_frequency g /\
  Filter.bandwidth f = Filter.bandwidth g /\
  Filter.A f = Filter.A g /\
  Filter.sampling_rate f = Filter.sampling_rate g /\
  Filter.starting_frequency f = Filter.starting_frequency g /\
  Filter.envelope f = Filter.envelope g /\
  Filter.sample_number f = Filter.sample_number g /\
  Filter.memory f = Filter.memory g.

(** The delay memory as [__init__] and [reset_memory] leave it. *)
Definition zero_memory : Filter.Memory :=
  {| Filter.previous_input := 0; Filter.second_previous_input := 0;
     Filter.previous_output := 0; Filter.second_previous_output := 0 |}.

(** The place of a phase in the order the boundaries are tested in;
    no phase comes last. *)
Definition phase_rank (phase : option EnvelopePhase.t) : nat :=
  match phase with
  | Some EnvelopePhase.attack => 0
  | Some EnvelopePhase.decay => 1
  | Some EnvelopePhase.sustain => 2
  | Some EnvelopePhase.release => 3
  | None => 4
  end.

(** What a run of [process] hands back to its caller: the samples, or
    the exception. *)
Definition outputs (run : result (list Z * Filter.t)) : result (list Z) :=
  match run with
  | Ok (ys, _) => Ok ys
  | Raise e => Raise e
  end.

(** A delay memory whose four slots hold the same sample. *)
Definition memory_constant (x : Z) (m : Filter.Memory) : Prop :=
  Filter.previous_input m = x /\
  Filter.second_previous_input m = x /\
  Filter.previous_output m = x /\
  Filter.second_previous_output m = x.

(** Two filters without envelope that agree on everything [process]
    reads. *)
Definition same_signal_path (f g : Filter.t) : Prop :=
  Filter.center_frequency f = Filter.center_frequency g /\
  Filter.bandwidth f = Filter.bandwidth g /\
  Filter.gain f = Filter.gain g /\
  Filter.sampling_rate f = Filter.sampling_rate g /\
  Filter.memory f = Filter.memory g /\
  Filter.envelope f = None /\
  Filter.envelope g = None.

(** Modelled from the spec: a sample buffer as the list of its samples,
    with [append] at the end and [mix_at] as the additive combination at
    an index inside the list. *)
#[global] Instance list_buffer : SoundBuffer (list Z) := {
  samples_length b := Z.of_nat (length b);
  add_sample b sample := b ++ [sample];
  combine_sample_at_index b sample index :=
    firstn (Z.to_nat index) b ++
    match skipn (Z.to_nat index) b with
    | [] => []
    | old :: rest => (old + sample)%Z :: rest
    end
}.


(** An amplitude envelope that ends after half of the sound. *)
Definition short_amplitude_env : Envelope.t :=
  {| Envelope.type := EnvelopeType.amplitude;
     Envelope.attack_length := 1 / 4;
     Envelope.decay_length := 0;
     Envelope.sustain_level := 0;
     Envelope.sustain_length := 1 / 4;
     Envelope.release_length := 0 |}.

(** A plain one-second sine tone, and the same note as a square tone. *)
Definition plain_tone : Tone.t :=
  {| Tone.note := 0; Tone.amplitude := 100; Tone.seconds := 1;
     Tone.amplitude_env := None; Tone.frequency_env := None |}.

Definition plain_sine : SineTone.t := {| SineTone.tone := plain_tone |}.

Definition plain_square : SquareTone.t := {| SquareTone.tone := plain_tone |}.

(** ** Facts about the conversions *)

Lemma float_div_ok (x y : R) : y <> 0 -> float_div x y = Ok (x / y).
Proof.
  intros Hy. unfold float_div.
  destruct (Req_dec_T y 0) as [E | _]; [contradiction | reflexivity].
Qed.

Lemma float_div_zero (x : R) : float_div x 0 = Raise ZeroDivisionError.
Proof.
  unfold float_div.
  destruct (Req_dec_T 0 0) as [_ | N]; [reflexivity | now elim N].
Qed.

Lemma float_div_inv (x y q : R) :
  float_div x y = Ok q -> y <> 0 /\ q = x / y.
Proof.
  unfold float_div.
  destruct (Req_dec_T y 0) as [E | N]; intros H; [discriminate |].
  injection H as <-. now split.
Qed.

Lemma Int_part_IZR (z : Z) : Int_part (IZR z) = z.
Proof.
  symmetry. apply Int_part_spec. split; lra.
Qed.

Lemma py_int_IZR (z : Z) : py_int (IZR z) = z.
Proof.
  unfold py_int. destruct (Rle_dec 0 (IZR z)) as [_ | _].
  - apply Int_part_IZR.
  - rewrite <- opp_IZR, Int_part_IZR. lia.
Qed.

(** Between 0 and 1, [int] gives 0. *)
Lemma py_int_small (x : R) : 0 <= x < 1 -> py_int x = 0%Z.
Proof.
  intros [H0 H1]. unfold py_int.
  destruct (Rle_dec 0 x) as [_ | N]; [| contradiction].
  symmetry. apply Int_part_spec. simpl. lra.
Qed.

Lemma py_round_IZR (z : Z) : py_round (IZR z) = z.
Proof.
  unfold py_round. destruct (Rle_dec 0 (IZR z)) as [_ | _].
  - symmetry. apply Int_part_spec. lra.
  - assert (E : (- Int_part (- IZR z + / 2) = z)%Z); [| exact E].
    replace (Int_part (- IZR z + / 2)) with (- z)%Z; [lia |].
    apply Int_part_spec. rewrite opp_IZR. lra.
Qed.

(** From one half up to (not including) three halves, [round] gives 1. *)
Lemma py_round_near_one (x : R) : / 2 <= x < 3 / 2 -> py_round x = 1%Z.
Proof.
  intros [H0 H1]. unfold py_round.
  destruct (Rle_dec 0 x) as [_ | N]; [| lra].
  symmetry. apply Int_part_spec. lra.
Qed.

(** ** Envelope: phase selection and the value per phase *)

Section EnvelopeFacts.

Import Envelope.

Variable self : Envelope.t.
Variable number_of_samples : R.

(** The phase selected, read off the four comparisons. *)
Lemma get_phase_cases (sample_index : Z) :
  let i := IZR sample_index in
  let N := number_of_samples in
  (i < attack_end self N /\
   get_phase self sample_index N = Some EnvelopePhase.attack) \/
  (attack_end self N <= i < decay_end self N /\
   get_phase self sample_index N = Some EnvelopePhase.decay) \/
  (attack_end self N <= i /\ decay_end self N <= i < sustain_end self N /\
   get_phase self sample_index N = Some EnvelopePhase.sustain) \/
  (attack_end self N <= i /\ decay_end self N <= i /\
   sustain_end self N <= i < release_end self N /\
   get_phase self sample_index N = Some EnvelopePhase.release) \/
  (attack_end self N <= i /\ decay_end self N <= i /\
   sustain_end self N <= i /\ release_end self N <= i /\
   get_phase self sample_index N = None).
Proof.
  unfold get_phase, release_end, sustain_end, decay_end, attack_end.
  cbv zeta.
  repeat match goal with
  | |- context [Rlt_dec ?x ?y] =>
      destruct (Rlt_dec x y) as [? | ?%Rnot_lt_le]
  end.
  - left. now split.
  - right; left. repeat split; assumption.
  - right; right; left. repeat split; assumption.
  - right; right; right; left. repeat split; assumption.
  - right; right; right; right. repeat split; assumption.
Qed.

Lemma get_phase_attack_inv (sample_index : Z) :
  get_phase self sample_index number_of_samples = Some EnvelopePhase.attack ->
  IZR sample_index < attack_end self number_of_samples.
Proof.
  intros Hp.
  destruct (get_phase_cases sample_index)
    as [[H _] | [[_ E] | [(_ & _ & E) | [(_ & _ & _ & E) | (_ & _ & _ & _ & E)]]]];
    try congruence; exact H.
Qed.

Lemma get_phase_decay_inv (sample_index : Z) :
  get_phase self sample_index number_of_samples = Some EnvelopePhase.decay ->
  attack_end self number_of_samples <= IZR sample_index
    < decay_end self number_of_samples.
Proof.
  intros Hp.
  destruct (get_phase_cases sample_index)
    as [[_ E] | [[H _] | [(_ & _ & E) | [(_ & _ & _ & E) | (_ & _ & _ & _ & E)]]]];
    try congruence; exact H.
Qed.

Lemma get_phase_release_inv (sample_index : Z) :
  get_phase self sample_index number_of_samples = Some EnvelopePhase.release ->
  sustain_end self number_of_samples <= IZR sample_index
    < release_end self number_of_samples.
Proof.
  intros Hp.
  destruct (get_phase_cases sample_index)
    as [[_ E] | [[_ E] | [(_ & _ & E) | [(_ & _ & H & _) | (_ & _ & _ & _ & E)]]]];
    try congruence; exact H.
Qed.

(** The value in the decay phase, once the phase is known: the clamp is
    a maximum with the resolved sustain level. *)
Lemma get_value_decay (default_value : R) (sample_index : Z) :
  get_phase self sample_index number_of_samples = Some EnvelopePhase.decay ->
  get_value self default_value sample_index number_of_samples =
  Ok (PyNum (Rmax
    (default_value *
       (1 - (IZR sample_index - attack_end self number_of_samples) /
            (decay_length self * number_of_samples)))
    (resolved_sustain_level self default_value))).
Proof.
  intros Hp. pose proof (get_phase_decay_inv _ Hp) as [Hlo Hhi].
  unfold decay_end, attack_end in *.
  unfold get_value. rewrite Hp.
  rewrite float_div_ok by lra. cbn [bind].
  unfold Rmax.
  match goal with
  | |- context [Rlt_dec ?x ?y] =>
      destruct (Rlt_dec x y) as [Hlt | Hge];
      destruct (Rle_dec x y) as [Hle | Hnle]
  end; try reflexivity; try lra.
  f_equal. f_equal. lra.
Qed.

End EnvelopeFacts.

Ltac unfold_ends :=
  unfold release_end, sustain_end, decay_end, attack_end in *.

(** C3.  For any envelope, with zero proportions allowed, and any sample
    index from 0 on, [get_value] raises nothing, so it never divides by
    zero; and whenever a phase with a division is selected (attack,
    decay, release) the length it divides by is positive, so a phase of
    length zero is never selected. *)
Theorem get_value_never_divides_by_zero
    (self : Envelope.t) (default_value : R) (sample_index : Z)
    (number_of_samples : R) :
  (0 <= sample_index)%Z ->
  (exists v,
     Envelope.get_value self default_value sample_index number_of_samples
     = Ok v) /\
  (Envelope.get_phase self sample_index number_of_samples
     = Some EnvelopePhase.attack ->
   0 < Envelope.attack_length self * number_of_samples) /\
  (Envelope.get_phase self sample_index number_of_samples
     = Some EnvelopePhase.decay ->
   0 < Envelope.decay_length self * number_of_samples) /\
  (Envelope.get_phase self sample_index number_of_samples
     = Some EnvelopePhase.release ->
   0 < Envelope.release_length self * number_of_samples).
Proof.
  intros Hidx. apply IZR_le in Hidx.
  assert (Hattack :
    Envelope.get_phase self sample_index number_of_samples
      = Some EnvelopePhase.attack ->
    0 < Envelope.attack_length self * number_of_samples).
  { intros Hp. apply get_phase_attack_inv in Hp. unfold_ends. lra. }
  assert (Hdecay :
    Envelope.get_phase self sample_index number_of_samples
      = Some EnvelopePhase.decay ->
    0 < Envelope.decay_length self * number_of_samples).
  { intros Hp. apply get_phase_decay_inv in Hp. unfold_ends. lra. }
  assert (Hrelease :
    Envelope.get_phase self sample_index number_of_samples
      = Some EnvelopePhase.release ->
    0 < Envelope.release_length self * number_of_samples).
  { intros Hp. apply get_phase_release_inv in Hp. unfold_ends. lra. }
  repeat split; try assumption.
  unfold Envelope.get_value.
  destruct (Envelope.get_phase self sample_index number_of_samples)
    as [[ | | | ] | ] eqn:Hp.
  - specialize (Hattack eq_refl).
    rewrite float_div_ok by lra. cbn [bind].
    destruct (Envelope.type self); [eexists; reflexivity |].
    match goal with
    | |- context [Req_dec_T ?x 0] => destruct (Req_dec_T x 0)
    end; eexists; reflexivity.
  - specialize (Hdecay eq_refl).
    rewrite float_div_ok by lra. cbn [bind].
    match goal with
    | |- context [Rlt_dec ?x ?y] => destruct (Rlt_dec x y)
    end; eexists; reflexivity.
  - eexists; reflexivity.
  - specialize (Hrelease eq_refl).
    rewrite float_div_ok by lra. cbn [bind].
    eexists; reflexivity.
  - eexists; reflexivity.
Qed.

Lemma get_value_never_divides_by_zero_witness :
  exists v, Envelope.get_value envelope_without_attack 100 0 8 = Ok v.
Proof.
  apply (get_value_never_divides_by_zero envelope_without_attack 100 0 8).
  lia.
Defined.

(** At sample index 0 inside an attack phase of positive length the
    ramp is at 0: an amplitude envelope returns that 0, a frequency
    envelope replaces it by 1. *)
Lemma get_value_index_0
    (self : Envelope.t) (default_value number_of_samples : R) :
  0 < Envelope.attack_length self * number_of_samples ->
  Envelope.get_value self default_value 0 number_of_samples =
  Ok (PyNum match Envelope.type self with
            | EnvelopeType.amplitude => 0
            | EnvelopeType.frequency => 1
            end).
Proof.
  intros Hlen.
  destruct (get_phase_cases self number_of_samples 0)
    as [[_ E] | [[H _] | [(H & _) | [(H & _) | (H & _)]]]];
    cbv zeta in *; unfold_ends; try lra.
  unfold Envelope.get_value. rewrite E.
  rewrite float_div_ok by lra. cbn [bind].
  replace (default_value * (0 / (Envelope.attack_length self * number_of_samples)))
    with 0 by (unfold Rdiv; ring).
  destruct (Envelope.type self); [reflexivity |].
  destruct (Req_dec_T 0 0) as [_ | N]; [reflexivity | now elim N].
Qed.

(** C4.  With proportions summing to at most 1, a positive attack
    proportion and a positive total sample count (the contract of the
    evaluation is 0 <= sample_index < total), [get_value] at sample
    index 0 returns 0 for an amplitude envelope and 1 for a frequency
    envelope, whose ramped value there is 0. *)
Theorem get_value_at_attack_start
    (self : Envelope.t) (default_value number_of_samples : R) :
  Envelope.attack_length self + Envelope.decay_length self +
    Envelope.sustain_length self + Envelope.release_length self <= 1 ->
  0 < Envelope.attack_length self ->
  0 < number_of_samples ->
  Envelope.get_value self default_value 0 number_of_samples =
  Ok (PyNum match Envelope.type self with
            | EnvelopeType.amplitude => 0
            | EnvelopeType.frequency => 1
            end).
Proof.
  intros _ Hattack Htotal.
  apply get_value_index_0. apply Rmult_lt_0_compat; assumption.
Qed.

Lemma get_value_at_attack_start_witness :
  Envelope.get_value frequency_sweep 2000 0 100 = Ok (PyNum 1).
Proof.
  apply (get_value_at_attack_start frequency_sweep 2000 100);
    simpl; lra.
Defined.

(** C5.  With a base value that is not negative, over the sample indices
    of the decay phase the value of [get_value] does not increase with
    the sample index, and it is never below the resolved sustain level. *)
Theorem decay_non_increasing_above_sustain
    (self : Envelope.t) (default_value number_of_samples : R) (i j : Z) :
  0 <= default_value ->
  Envelope.get_phase self i number_of_samples = Some EnvelopePhase.decay ->
  Envelope.get_phase self j number_of_samples = Some EnvelopePhase.decay ->
  (i <= j)%Z ->
  exists vi vj,
    Envelope.get_value self default_value i number_of_samples = Ok (PyNum vi) /\
    Envelope.get_value self default_value j number_of_samples = Ok (PyNum vj) /\
    vj <= vi /\
    Envelope.resolved_sustain_level self default_value <= vj /\
    Envelope.resolved_sustain_level self default_value <= vi.
Proof.
  intros Hbase Hi Hj Hij. apply IZR_le in Hij.
  pose proof (get_phase_decay_inv _ _ _ Hi) as [Hlo Hhi].
  unfold_ends.
  set (length := Envelope.decay_length self * number_of_samples) in *.
  set (start := Envelope.attack_length self * number_of_samples) in *.
  assert (Hlen : 0 < length) by lra.
  do 2 eexists.
  split; [apply get_value_decay; exact Hi |].
  split; [apply get_value_decay; exact Hj |].
  unfold_ends. fold start. fold length.
  split; [| split; apply Rmax_r].
  apply Rle_max_compat_r.
  apply Rmult_le_compat_l; [exact Hbase |].
  apply Rplus_le_compat_l, Ropp_le_contravar.
  apply Rmult_le_compat_r; [left; apply Rinv_0_lt_compat; exact Hlen | lra].
Qed.

Lemma decay_non_increasing_above_sustain_witness :
  exists vi vj,
    Envelope.get_value envelope_without_attack 100 1 8 = Ok (PyNum vi) /\
    Envelope.get_value envelope_without_attack 100 3 8 = Ok (PyNum vj) /\
    vj <= vi /\
    Envelope.resolved_sustain_level envelope_without_attack 100 <= vj /\
    Envelope.resolved_sustain_level envelope_without_attack 100 <= vi.
Proof.
  apply (decay_non_increasing_above_sustain envelope_without_attack 100 8 1 3).
  - lra.
  - unfold Envelope.get_phase; simpl.
    destruct (Rlt_dec 1 (0 * 8)) as [H | _]; [lra |].
    destruct (Rlt_dec 1 (0 * 8 + 1 / 2 * 8)) as [_ | H]; [reflexivity | lra].
  - unfold Envelope.get_phase; simpl.
    destruct (Rlt_dec 3 (0 * 8)) as [H | _]; [lra |].
    destruct (Rlt_dec 3 (0 * 8 + 1 / 2 * 8)) as [_ | H]; [reflexivity | lra].
  - lia.
Defined.

(** ** Tones *)

Lemma bind_ok_inv {A B : Type} (c : result A) (k : A -> result B) (b : B) :
  bind c k = Ok b -> exists a, c = Ok a /\ k a = Ok b.
Proof.
  destruct c as [a | e]; simpl; intros H; [| discriminate].
  exists a. now split.
Qed.

Lemma as_number_ok_inv (v : pyobj) (x : R) :
  as_number v = Ok x -> v = PyNum x.
Proof.
  destruct v; simpl; intros H; [discriminate | now injection H as ->].
Qed.

Lemma interval_positive : 0 < Rpower 2 (1 / 12).
Proof. unfold Rpower. apply exp_pos. Qed.

Lemma frequency_positive (self : Tone.t) : 0 < Tone.frequency self.
Proof.
  unfold Tone.frequency, Tone.__convert_note_to_freq.
  apply Rmult_lt_0_compat; [lra |]. unfold Rpower. apply exp_pos.
Qed.

(** Note 0 is the A above middle C. *)
Lemma frequency_of_note_0 (self : Tone.t) :
  Tone.note self = 0 -> Tone.frequency self = 440.
Proof.
  intros E. unfold Tone.frequency, Tone.__convert_note_to_freq.
  rewrite E, Rpower_O by apply interval_positive. lra.
Qed.

(** [_get_sine_value] read backwards from a returned pair. *)
Lemma get_sine_value_inv (self : Tone.t) (sampling_rate sample_index : Z)
    (previous_phase : pyobj) (sine_value phase : R) :
  Tone._get_sine_value self sampling_rate sample_index previous_phase
    = Ok (sine_value, phase) ->
  exists frequency_i previous,
    Tone._get_frequency self sampling_rate sample_index
      = Ok (PyNum frequency_i) /\
    previous_phase = PyNum previous /\
    phase = previous + 2 * PI / (1 / frequency_i * IZR sampling_rate) /\
    sine_value = sin phase.
Proof.
  unfold Tone._get_sine_value. intros H.
  apply bind_ok_inv in H as (fobj & Hf & H).
  apply bind_ok_inv in H as (f & Hnum & H).
  apply as_number_ok_inv in Hnum. subst fobj.
  apply bind_ok_inv in H as (spc & Hspc & H).
  apply float_div_inv in Hspc as [_ ->].
  apply bind_ok_inv in H as (inc & Hinc & H).
  apply float_div_inv in Hinc as [_ ->].
  apply bind_ok_inv in H as (p & Hp & H).
  apply as_number_ok_inv in Hp. subst previous_phase.
  injection H as <- <-.
  exists f, p. repeat split; assumption.
Qed.

(** Without a frequency envelope and at a sampling rate other than 0,
    [_get_sine_value] returns. *)
Lemma get_sine_value_plain (self : Tone.t) (sampling_rate sample_index : Z)
    (previous : R) :
  Tone.frequency_env self = None ->
  sampling_rate <> 0%Z ->
  let phase :=
    previous + 2 * PI / (1 / Tone.frequency self * IZR sampling_rate) in
  Tone._get_sine_value self sampling_rate sample_index (PyNum previous)
    = Ok (sin phase, phase).
Proof.
  intros Henv Hrate phase.
  pose proof (frequency_positive self) as Hf.
  assert (Hr : IZR sampling_rate <> 0) by (now apply not_0_IZR).
  unfold Tone._get_sine_value, Tone._get_frequency. rewrite Henv.
  cbn [bind as_number].
  rewrite float_div_ok by lra. cbn [bind].
  rewrite float_div_ok; [reflexivity |].
  apply Rmult_integral_contrapositive_currified; [| exact Hr].
  unfold Rdiv. rewrite Rmult_1_l. apply Rinv_neq_0_compat. lra.
Qed.

Lemma sustained_amplitude_value :
  Envelope.get_value sustained_amplitude 1 0 (1 * 1760) = Ok (PyNum (3 / 4)).
Proof.
  destruct (get_phase_cases sustained_amplitude (1 * 1760) 0)
    as [[H _] | [[H _] | [(_ & _ & E) | [(_ & _ & H & _) | (_ & _ & H & _)]]]];
    unfold_ends; simpl in *; try lra.
  unfold Envelope.get_value. rewrite E.
  unfold Envelope.resolved_sustain_level. simpl.
  destruct (Req_dec_T (3 / 4) 0) as [H | _]; [lra | reflexivity].
Qed.

Lemma sine_sustained_first_sample :
  SineTone._create_sample sine_sustained 1760 0 (PyNum 0)
  = Ok (0%Z, PI / 2).
Proof.
  pose proof (frequency_of_note_0 (SineTone.tone sine_sustained) eq_refl)
    as Hf.
  unfold SineTone._create_sample, Tone._get_amplitude.
  cbn [SineTone.tone sine_sustained Tone.amplitude_env Tone.amplitude
       Tone.seconds] in *.
  rewrite sustained_amplitude_value. cbn [bind].
  rewrite get_sine_value_plain by (reflexivity || lia).
  cbn [bind as_number]. rewrite Hf.
  replace (0 + 2 * PI / (1 / 440 * 1760)) with (PI / 2) by field.
  rewrite sin_PI2, py_int_small by lra. reflexivity.
Qed.

(** Without envelopes and at a sampling rate other than 0 a sine tone
    always has its next sample. *)
Lemma sine_create_sample_plain (self : SineTone.t)
    (sampling_rate sample_index : Z) (previous : R) :
  Tone.amplitude_env (SineTone.tone self) = None ->
  Tone.frequency_env (SineTone.tone self) = None ->
  sampling_rate <> 0%Z ->
  let phase :=
    previous + 2 * PI / (1 / Tone.frequency (SineTone.tone self)
                         * IZR sampling_rate) in
  SineTone._create_sample self sampling_rate sample_index (PyNum previous)
  = Ok (py_int (sin phase * Tone.amplitude (SineTone.tone self)), phase).
Proof.
  intros Ha Hf Hrate phase.
  unfold SineTone._create_sample, Tone._get_amplitude.
  rewrite Ha. cbn [bind].
  rewrite get_sine_value_plain by assumption.
  reflexivity.
Qed.

(** C8, as the code has it.  Every sample that [SineTone._create_sample]
    returns is [int(sin(phase) * amplitude_i)], the product truncated
    toward zero, where [amplitude_i] is the amplitude resolved for the
    sample index and [phase] is the previous phase advanced by the
    increment of the frequency resolved for the sample index. *)
Theorem sine_sample_is_truncated_product
    (self : SineTone.t) (sampling_rate sample_index : Z)
    (previous_phase : pyobj) (sample : Z) (phase : R) :
  SineTone._create_sample self sampling_rate sample_index previous_phase
    = Ok (sample, phase) ->
  exists amplitude_i frequency_i previous,
    Tone._get_amplitude (SineTone.tone self) sampling_rate sample_index
      = Ok (PyNum amplitude_i) /\
    Tone._get_frequency (SineTone.tone self) sampling_rate sample_index
      = Ok (PyNum frequency_i) /\
    previous_phase = PyNum previous /\
    phase = previous + 2 * PI / (1 / frequency_i * IZR sampling_rate) /\
    sample = py_int (sin phase * amplitude_i).
Proof.
  unfold SineTone._create_sample. intros H.
  apply bind_ok_inv in H as (aobj & Ha & H).
  apply bind_ok_inv in H as ([sine_value p] & Hs & H).
  apply bind_ok_inv in H as (a & Hnum & H).
  apply as_number_ok_inv in Hnum. subst aobj.
  injection H as <- <-.
  apply get_sine_value_inv in Hs as (f & prev & Hf & Hprev & Hphase & ->).
  exists a, f, prev. repeat split; assumption.
Qed.

Lemma sine_sample_is_truncated_product_witness :
  exists amplitude_i frequency_i previous,
    Tone._get_amplitude (SineTone.tone sine_sustained) 1760 0
      = Ok (PyNum amplitude_i) /\
    Tone._get_frequency (SineTone.tone sine_sustained) 1760 0
      = Ok (PyNum frequency_i) /\
    PyNum 0 = PyNum previous /\
    PI / 2 = previous + 2 * PI / (1 / frequency_i * 1760) /\
    0%Z = py_int (sin (PI / 2) * amplitude_i).
Proof.
  apply (sine_sample_is_truncated_product sine_sustained 1760 0 (PyNum 0)).
  exact sine_sustained_first_sample.
Defined.

(** C8 as stated fails on the first sample of [sine_sustained] at 1760
    samples per second: the phase is pi/2 and the resolved amplitude 3/4,
    so the code emits int(0.75) = 0 where round(0.75) is 1. *)
Lemma sine_sample_is_not_rounded_product :
  SineTone._create_sample sine_sustained 1760 0 (PyNum 0)
    = Ok (0%Z, PI / 2) /\
  Tone._get_amplitude (SineTone.tone sine_sustained) 1760 0
    = Ok (PyNum (3 / 4)) /\
  SineSpec.sample (PI / 2) (3 / 4) = 1%Z /\
  0%Z <> SineSpec.sample (PI / 2) (3 / 4).
Proof.
  assert (E : SineSpec.sample (PI / 2) (3 / 4) = 1%Z).
  { unfold SineSpec.sample. rewrite sin_PI2. apply py_round_near_one. lra. }
  repeat split.
  - exact sine_sustained_first_sample.
  - exact sustained_amplitude_value.
  - exact E.
  - rewrite E. discriminate.
Qed.

Lemma xrange_cons (start stop : Z) :
  (start < stop)%Z -> xrange start stop = start :: xrange (start + 1) stop.
Proof.
  intros Hlt. unfold xrange.
  replace (Z.to_nat (stop - start)) with (S (Z.to_nat (stop - (start + 1))))
    by lia.
  cbn [seq map]. f_equal; [lia |].
  rewrite <- seq_shift, map_map.
  apply map_ext. intros k. lia.
Qed.

Lemma xrange_nonzero (start stop : Z) :
  (0 < start)%Z -> Forall (fun k => k <> 0%Z) (xrange start stop).
Proof.
  intros Hpos. apply Forall_forall. intros k Hin.
  unfold xrange in Hin. apply in_map_iff in Hin as (n & <- & _). lia.
Qed.

(** The loop, once the amplitude and the sine value are known to come
    back: every pass adds its truncated term and rebinds [phase] to the
    same phase. *)
Lemma harmonics_loop_ok (self : HarmonicSawTone.t)
    (sampling_rate sample_index : Z) (previous_phase : pyobj)
    (amplitude_i sine_value phase : R) (harmonics : list Z) :
  Tone._get_amplitude (HarmonicSawTone.tone self) sampling_rate sample_index
    = Ok (PyNum amplitude_i) ->
  Tone._get_sine_value (HarmonicSawTone.tone self) sampling_rate sample_index
    previous_phase = Ok (sine_value, phase) ->
  Forall (fun k => k <> 0%Z) harmonics ->
  forall (sample : Z) (frequency : R) (bound : option R),
  exists frequency',
    HarmonicSawTone.harmonics_loop self sampling_rate sample_index
      previous_phase harmonics sample frequency bound
    = Ok ((sample + harmonic_terms sine_value amplitude_i harmonics)%Z,
          frequency',
          match harmonics with [] => bound | _ :: _ => Some phase end).
Proof.
  intros Ha Hs Hnz.
  induction Hnz as [| k rest Hk Hrest IH]; intros sample frequency bound.
  - exists frequency. cbn. now rewrite Z.add_0_r.
  - cbn [HarmonicSawTone.harmonics_loop].
    rewrite Ha. cbn [bind as_number].
    rewrite float_div_ok by (now apply not_0_IZR). cbn [bind].
    rewrite Hs. cbn [bind].
    destruct (IH (sample + py_int (sine_value * (amplitude_i / IZR k)))%Z
                 (frequency + Tone.frequency (HarmonicSawTone.tone self))
                 (Some phase)) as [f' E].
    exists f'. rewrite E. f_equal. f_equal.
    + f_equal. unfold harmonic_terms. cbn [map fold_right]. lia.
    + destruct rest; reflexivity.
Qed.

(** [HarmonicSawTone._create_sample] with at least one level, written
    without the loop. *)
Lemma saw_create_sample_unfolded (self : HarmonicSawTone.t)
    (sampling_rate sample_index : Z) (previous_phase : pyobj) :
  (1 <= HarmonicSawTone.levels self)%Z ->
  HarmonicSawTone._create_sample self sampling_rate sample_index previous_phase
  = (amplitude_obj <-
       Tone._get_amplitude (HarmonicSawTone.tone self) sampling_rate
         sample_index ;;
     amplitude_i <- as_number amplitude_obj ;;
     ' (sine_value, phase) <-
       Tone._get_sine_value (HarmonicSawTone.tone self) sampling_rate
         sample_index previous_phase ;;
     Ok (harmonic_terms sine_value amplitude_i
           (xrange 1 (HarmonicSawTone.levels self + 1)), phase)).
Proof.
  intros Hlevels. unfold HarmonicSawTone._create_sample.
  destruct (Tone._get_amplitude (HarmonicSawTone.tone self) sampling_rate
              sample_index) as [[ | a] | e] eqn:Ha.
  - rewrite xrange_cons by lia. cbn. rewrite Ha. reflexivity.
  - destruct (Tone._get_sine_value (HarmonicSawTone.tone self) sampling_rate
                sample_index previous_phase) as [[sv p] | e] eqn:Hs.
    + destruct (harmonics_loop_ok self sampling_rate sample_index
                  previous_phase a sv p
                  (xrange 1 (HarmonicSawTone.levels self + 1)) Ha Hs
                  (xrange_nonzero 1 _ ltac:(lia)) 0%Z
                  (Tone.frequency (HarmonicSawTone.tone self)) None)
        as [f' E].
      rewrite E. cbn [bind as_number].
      rewrite xrange_cons by lia. reflexivity.
    + rewrite xrange_cons by lia. cbn [HarmonicSawTone.harmonics_loop].
      rewrite Ha. cbn [bind as_number].
      rewrite float_div_ok by lra. cbn [bind]. rewrite Hs. reflexivity.
  - rewrite xrange_cons by lia. cbn. rewrite Ha. reflexivity.
Qed.

Lemma saw_two_levels_first_sample :
  HarmonicSawTone._create_sample saw_two_levels 1760 0 (PyNum 0)
  = Ok (15%Z, PI / 2).
Proof.
  pose proof (frequency_of_note_0 (HarmonicSawTone.tone saw_two_levels)
                eq_refl) as Hf.
  rewrite saw_create_sample_unfolded by (simpl; lia).
  unfold Tone._get_amplitude.
  cbn [HarmonicSawTone.tone HarmonicSawTone.levels saw_two_levels
       Tone.amplitude_env Tone.amplitude bind as_number] in *.
  rewrite get_sine_value_plain by (reflexivity || lia).
  cbn [bind]. rewrite Hf.
  replace (0 + 2 * PI / (1 / 440 * 1760)) with (PI / 2) by field.
  rewrite sin_PI2.
  change (xrange 1 (2 + 1)) with [1%Z; 2%Z].
  unfold harmonic_terms. cbn [map fold_right].
  replace (1 * (10 / 1)) with (IZR 10) by lra.
  replace (1 * (10 / 2)) with (IZR 5) by lra.
  rewrite !py_int_IZR. reflexivity.
Qed.

(** C2 on the code: the first sample of [saw_two_levels] at 1760 samples
    per second.  The loop variable [frequency] is advanced under the
    comment "Next harmonic" and never read, so [_get_sine_value] gives
    both harmonics the fundamental's phase pi/2 and the code emits
    int(10) + int(5) = 15; the stated formula puts the second harmonic
    at twice the frequency, phase pi, and gives round(10 + 0) = 10
    (truncating instead of rounding gives 10 there as well). *)
Lemma harmonic_saw_sample_is_not_spec_sample :
  HarmonicSawTone._create_sample saw_two_levels 1760 0 (PyNum 0)
    = Ok (15%Z, PI / 2) /\
  HarmonicSawSpec.sample 2 10
    (Tone.frequency (HarmonicSawTone.tone saw_two_levels)) 1760 (fun _ => 0)
    = 10%Z /\
  15%Z <> HarmonicSawSpec.sample 2 10
            (Tone.frequency (HarmonicSawTone.tone saw_two_levels)) 1760
            (fun _ => 0).
Proof.
  assert (E : HarmonicSawSpec.sample 2 10
                (Tone.frequency (HarmonicSawTone.tone saw_two_levels)) 1760
                (fun _ => 0) = 10%Z).
  { rewrite (frequency_of_note_0 (HarmonicSawTone.tone saw_two_levels) eq_refl).
    unfold HarmonicSawSpec.sample, HarmonicSawSpec.phase,
      HarmonicSawSpec.phase_increment.
    cbn [seq map fold_right INR].
    replace (0 + 2 * PI / (1760 / (1 * 440))) with (PI / 2) by field.
    replace (0 + 2 * PI / (1760 / ((1 + 1) * 440))) with PI by field.
    rewrite sin_PI2, sin_PI.
    replace (1 * (10 / 1) + (0 * (10 / (1 + 1)) + 0)) with (IZR 10) by lra.
    apply py_round_IZR. }
  repeat split.
  - exact saw_two_levels_first_sample.
  - exact E.
  - rewrite E. discriminate.
Qed.

Section TwoTones.

Context {T1 T2 : Type} `{C1 : ToneClass T1} `{C2 : ToneClass T2}.
Variable self1 : T1.
Variable self2 : T2.

Hypothesis same_steps :
  forall sampling_rate sample_index previous_phase st,
    same_step (_create_sample self1 sampling_rate sample_index previous_phase st)
              (_create_sample self2 sampling_rate sample_index previous_phase st).

(** Tones that step alike yield the same samples and stop alike. *)
Lemma generate_from_same_steps (sampling_rate : Z) (indices : list Z) :
  forall previous_phase st,
    let run1 := generate_from self1 sampling_rate indices previous_phase st in
    let run2 := generate_from self2 sampling_rate indices previous_phase st in
    fst (fst run1) = fst (fst run2) /\
    (snd (fst run1) = None <-> snd (fst run2) = None).
Proof.
  induction indices as [| i rest IH]; intros previous_phase st; cbn zeta.
  - cbn. split; [reflexivity | tauto].
  - cbn [generate_from].
    pose proof (same_steps sampling_rate i previous_phase st) as Hstep.
    destruct (_create_sample self1 sampling_rate i previous_phase st)
      as [[[sample1 phase1] st1] | e1];
      destruct (_create_sample self2 sampling_rate i previous_phase st)
      as [[[sample2 phase2] st2] | e2];
      cbn in Hstep; try contradiction.
    + injection Hstep as <- <- <-.
      specialize (IH phase1 st1). cbn zeta in IH.
      destruct (generate_from self1 sampling_rate rest phase1 st1)
        as [[samples1 exc1] st1'].
      destruct (generate_from self2 sampling_rate rest phase1 st1)
        as [[samples2 exc2] st2'].
      cbn in *. destruct IH as [-> Hexc]. split; [reflexivity | exact Hexc].
    + cbn. split; [reflexivity |]. split; discriminate.
Qed.

End TwoTones.

(** With one level the sawtooth's step is the sine's step. *)
Lemma saw_one_level_step (tone : Tone.t) (sampling_rate sample_index : Z)
    (previous_phase : pyobj) :
  same_step
    (HarmonicSawTone._create_sample
       {| HarmonicSawTone.tone := tone; HarmonicSawTone.levels := 1 |}
       sampling_rate sample_index previous_phase)
    (SineTone._create_sample {| SineTone.tone := tone |}
       sampling_rate sample_index previous_phase).
Proof.
  rewrite saw_create_sample_unfolded by (simpl; lia).
  unfold SineTone._create_sample.
  cbn [HarmonicSawTone.tone HarmonicSawTone.levels SineTone.tone].
  change (xrange 1 (1 + 1)) with [1%Z].
  destruct (Tone._get_amplitude tone sampling_rate sample_index)
    as [[ | a] | e];
    destruct (Tone._get_sine_value tone sampling_rate sample_index
                previous_phase) as [[sv p] | e'];
    cbn; try exact I.
  f_equal. unfold harmonic_terms. cbn [map fold_right].
  rewrite Z.add_0_r. f_equal. lra.
Qed.

(** C7.  For every note, amplitude, duration and pair of envelopes (every
    [Tone.t]), every sound and every state of the random generator, the
    sawtooth tone with one level yields the same sequence of samples as
    the sine tone, and its generation runs to the end exactly when the
    sine tone's does. *)
Theorem harmonic_saw_one_level_is_sine
    (tone : Tone.t) (sound : Sound.t) (st : RandomState) :
  let saw := {| HarmonicSawTone.tone := tone; HarmonicSawTone.levels := 1 |} in
  let sine := {| SineTone.tone := tone |} in
  fst (fst (__generate saw sound st)) = fst (fst (__generate sine sound st)) /\
  (snd (fst (__generate saw sound st)) = None <->
   snd (fst (__generate sine sound st)) = None).
Proof.
  intros saw sine. unfold __generate.
  apply generate_from_same_steps.
  intros sampling_rate sample_index previous_phase st'.
  pose proof (saw_one_level_step tone sampling_rate sample_index
                previous_phase) as Hstep.
  cbn [_create_sample HarmonicSawTone.tone_class SineTone.tone_class].
  fold saw sine in Hstep.
  destruct (HarmonicSawTone._create_sample saw sampling_rate sample_index
              previous_phase) as [[s1 p1] | e1];
    destruct (SineTone._create_sample sine sampling_rate sample_index
                previous_phase) as [[s2 p2] | e2];
    cbn in *; try contradiction; try exact I.
  injection Hstep as <- <-. reflexivity.
Qed.

(** The samples of a noise tone are the coming random values, each
    scaled by the amplitude and truncated; the run always ends. *)
Lemma noise_generate_from (self : Noise.t) (sampling_rate : Z)
    (indices : list Z) :
  forall previous_phase st,
    fst (generate_from self sampling_rate indices previous_phase st)
    = (map (fun k => py_int (st k * Noise.amplitude self))
           (seq 0 (length indices)),
       None).
Proof.
  induction indices as [| i rest IH]; intros previous_phase st.
  - reflexivity.
  - cbn [generate_from _create_sample Noise.tone_class].
    unfold Noise._create_sample at 1. cbn [random_uniform].
    specialize (IH PyNone (fun n => st (S n))).
    destruct (generate_from self sampling_rate rest PyNone
                (fun n => st (S n))) as [[samples exc] st''].
    cbn in IH. injection IH as -> ->.
    cbn [fst length seq map]. f_equal. f_equal.
    rewrite <- seq_shift, map_map. reflexivity.
Qed.

(** C9.  Two noise tones with the same amplitude and duration, whatever
    the note and the amplitude and frequency envelopes attached to each,
    generate the same samples from the same sound and the same random
    values (and leave the random generator in the same state): no
    envelope is applied to noise. *)
Theorem noise_ignores_note_and_envelopes
    (amplitude duration : R)
    (note1 note2 : pyobj)
    (amplitude_env1 amplitude_env2 frequency_env1 frequency_env2 :
       option Envelope.t)
    (sound : Sound.t) (st : RandomState) :
  __generate {| Noise.note := note1; Noise.amplitude := amplitude;
                Noise.seconds := duration;
                Noise.amplitude_env := amplitude_env1;
                Noise.frequency_env := frequency_env1 |} sound st
  = __generate {| Noise.note := note2; Noise.amplitude := amplitude;
                  Noise.seconds := duration;
                  Noise.amplitude_env := amplitude_env2;
                  Noise.frequency_env := frequency_env2 |} sound st.
Proof.
  unfold __generate. cbn [seconds Noise.tone_class Noise.seconds].
  generalize (PyNum 0) as previous_phase.
  revert st.
  induction (xrange 0 (Sound.convert_secs_to_samples sound duration))
    as [| i rest IH]; intros st previous_phase.
  - reflexivity.
  - cbn [generate_from _create_sample Noise.tone_class].
    unfold Noise._create_sample.
    cbn [random_uniform Noise.amplitude].
    rewrite IH. reflexivity.
Qed.

(** ** The peaking filter *)

Lemma A_positive (self : Filter.t) : 0 < Filter.A self.
Proof. unfold Filter.A, Rpower. apply exp_pos. Qed.

Lemma A_zero_gain (self : Filter.t) :
  zero_gain (Filter.gain self) -> Filter.A self = 1.
Proof.
  unfold Filter.A. intros [-> | ->].
  - change (0 / 40)%Z with 0%Z. apply Rpower_O. lra.
  - replace (0 / 40) with 0 by lra. apply Rpower_O. lra.
Qed.

Lemma alpha_ok (self : Filter.t) (w : R) :
  Filter.w0 self = Ok w ->
  sin w <> 0 ->
  Filter.alpha self
  = Ok (sin w * sinh (ln 2 / 2 * Filter.bandwidth self * w / sin w)).
Proof.
  intros Hw Hsin. unfold Filter.alpha, Filter.w0_sine.
  rewrite Hw. cbn [bind]. now rewrite float_div_ok.
Qed.

Lemma alpha_inv (self : Filter.t) (alpha : R) :
  Filter.alpha self = Ok alpha ->
  exists w, Filter.w0 self = Ok w /\ sin w <> 0.
Proof.
  unfold Filter.alpha, Filter.w0_sine. intros H.
  destruct (Filter.w0 self) as [w | e]; [| discriminate].
  cbn [bind] in H. exists w. split; [reflexivity |].
  apply bind_ok_inv in H as (q & Hq & _).
  now apply float_div_inv in Hq.
Qed.

(** The coefficients exist exactly when [w0] does, its sine is not 0 and
    [a0] is not 0; they are then given by [peaking_formula]. *)
Lemma peaking_coefficients_ok (self : Filter.t) (w : R) :
  Filter.w0 self = Ok w ->
  sin w <> 0 ->
  Filter.a0 (peaking_formula w (Filter.bandwidth self) (Filter.A self)) <> 0 ->
  Peaking.peaking_coefficients self
  = Ok (peaking_formula w (Filter.bandwidth self) (Filter.A self)).
Proof.
  intros Hw Hsin Ha0. cbn [peaking_formula Filter.a0] in Ha0.
  pose proof (A_positive self) as HA.
  unfold Peaking.peaking_coefficients, Filter.w0_cosine.
  rewrite (alpha_ok self w Hw Hsin), Hw. cbn [bind].
  rewrite !(float_div_ok _ (Filter.A self)) by lra. cbn [bind].
  rewrite !float_div_ok by exact Ha0. reflexivity.
Qed.

Lemma peaking_coefficients_inv (self : Filter.t) (c : Filter.Coefficients) :
  Peaking.peaking_coefficients self = Ok c ->
  exists w,
    Filter.w0 self = Ok w /\
    sin w <> 0 /\
    Filter.a0 c <> 0 /\
    c = peaking_formula w (Filter.bandwidth self) (Filter.A self).
Proof.
  intros H.
  assert (Hal : exists alpha, Filter.alpha self = Ok alpha).
  { unfold Peaking.peaking_coefficients in H.
    destruct (Filter.alpha self) as [al | e]; [now exists al | discriminate]. }
  destruct Hal as [al Hal].
  apply alpha_inv in Hal as (w & Hw & Hsin).
  exists w.
  destruct (Req_dec_T
              (Filter.a0 (peaking_formula w (Filter.bandwidth self)
                            (Filter.A self))) 0) as [Hz | Hnz].
  - exfalso. cbn [peaking_formula Filter.a0] in Hz.
    pose proof (A_positive self) as HA.
    unfold Peaking.peaking_coefficients, Filter.w0_cosine in H.
    rewrite (alpha_ok self w Hw Hsin), Hw in H. cbn [bind] in H.
    rewrite !(float_div_ok _ (Filter.A self)) in H by lra. cbn [bind] in H.
    rewrite Hz, float_div_zero in H. discriminate.
  - rewrite (peaking_coefficients_ok self w Hw Hsin Hnz) in H.
    injection H as <-. repeat split; assumption.
Qed.

(** At 0 dB the feed-forward coefficients are the feedback ones, and
    [b0] is 1. *)
Lemma peaking_formula_unity (w bandwidth : R) :
  let c := peaking_formula w bandwidth 1 in
  Filter.a0 c <> 0 ->
  Filter.b0 c = 1 /\ Filter.b1 c = Filter.a1 c /\ Filter.b2 c = Filter.a2 c.
Proof.
  cbn [peaking_formula Filter.a0 Filter.a1 Filter.a2
       Filter.b0 Filter.b1 Filter.b2].
  intros Ha0. repeat split.
  - unfold Rdiv in *. rewrite Rinv_1, Rmult_1_r in *.
    now apply Rinv_r.
  - unfold Rdiv. now rewrite Rinv_1, !Rmult_1_r.
Qed.

(** The coefficients are a function of the centre frequency, the
    bandwidth, the gain and the sampling rate, and of nothing else in
    the filter. *)
Lemma peaking_coefficients_ext (f g : Filter.t) :
  Filter.center_frequency f = Filter.center_frequency g ->
  Filter.bandwidth f = Filter.bandwidth g ->
  Filter.gain f = Filter.gain g ->
  Filter.sampling_rate f = Filter.sampling_rate g ->
  Peaking.peaking_coefficients f = Peaking.peaking_coefficients g.
Proof.
  intros Hc Hb Hg Hr.
  unfold Peaking.peaking_coefficients, Filter.alpha, Filter.w0_cosine,
    Filter.w0_sine, Filter.w0, Filter.A.
  now rewrite Hc, Hb, Hg, Hr.
Qed.

(** One call of [process], read backwards from what it returned: the
    coefficients it leaves are those of the filter as the call found it;
    the centre frequency it leaves is the envelope's value for the
    sample number, when there is an envelope. *)
Lemma process_inv (self : Filter.t) (orig_sample : Z) (sample_total : R)
    (new_sample : Z) (self' : Filter.t) :
  Peaking.process self orig_sample sample_total = Ok (new_sample, self') ->
  exists c,
    Peaking.peaking_coefficients self = Ok c /\
    Filter.coefficients self' = Some c /\
    match Filter.envelope self with
    | Some env =>
        Envelope.get_value env (Filter.starting_frequency self)
          (Filter.sample_number self) sample_total
        = Ok (Filter.center_frequency self')
    | None => Filter.center_frequency self' = Filter.center_frequency self
    end /\
    Filter.gain self' = Filter.gain self /\
    Filter.bandwidth self' = Filter.bandwidth self /\
    Filter.sampling_rate self' = Filter.sampling_rate self /\
    Filter.envelope self' = Filter.envelope self /\
    Filter.sample_number self' = (Filter.sample_number self + 1)%Z /\
    Filter.memory self' =
      {| Filter.previous_input := orig_sample;
         Filter.second_previous_input :=
           Filter.previous_input (Filter.memory self);
         Filter.previous_output := new_sample;
         Filter.second_previous_output :=
           Filter.previous_output (Filter.memory self) |} /\
    new_sample =
      py_int (Filter.b0 c * IZR orig_sample +
              Filter.b1 c * IZR (Filter.previous_input (Filter.memory self)) +
              Filter.b2 c *
                IZR (Filter.second_previous_input (Filter.memory self)) -
              Filter.a1 c * IZR (Filter.previous_output (Filter.memory self)) -
              Filter.a2 c *
                IZR (Filter.second_previous_output (Filter.memory self))).
Proof.
  unfold Peaking.process, Filter.process, Peaking._recalculate_coefficients.
  intros H.
  apply bind_ok_inv in H as (self1 & H1 & H).
  apply bind_ok_inv in H1 as (c & Hc & H1). injection H1 as <-.
  exists c. split; [exact Hc |].
  cbn [Filter.envelope Filter.set_coefficients] in H.
  destruct (Filter.envelope self) as [env |] eqn:Henv.
  - apply bind_ok_inv in H as (self2 & H2 & H).
    apply bind_ok_inv in H2 as (v & Hv & H2). injection H2 as <-.
    cbn in Hv, H. injection H as <- <-. cbn.
    repeat split; try reflexivity; try assumption.
  - cbn in H. injection H as <- <-. cbn.
    repeat split; try reflexivity; try assumption.
Qed.

(** Without an envelope, a filter whose coefficients can be computed
    once can process any stream. *)
Lemma process_all_without_envelope (samples : list Z) (sample_total : R) :
  forall (self : Filter.t) (c : Filter.Coefficients),
    Filter.envelope self = None ->
    Peaking.peaking_coefficients self = Ok c ->
    exists outputs self',
      Peaking.process_all self samples sample_total = Ok (outputs, self').
Proof.
  induction samples as [| x rest IH]; intros self c Henv Hc.
  - exists [], self. reflexivity.
  - cbn [Peaking.process_all].
    destruct (Peaking.process self x sample_total) as [[y self1] | e] eqn:Hstep.
    + pose proof (process_inv _ _ _ _ _ Hstep)
        as (c' & _ & _ & Hcf & Hg & Hb & Hr & Henv' & _).
      rewrite Henv in Hcf, Henv'.
      assert (Hc1 : Peaking.peaking_coefficients self1 = Ok c).
      { rewrite <- Hc. now apply peaking_coefficients_ext. }
      destruct (IH self1 c Henv' Hc1) as (ys & self2 & Hrest).
      exists (y :: ys), self2. cbn [bind]. rewrite Hrest. reflexivity.
    + exfalso. revert Hstep.
      unfold Peaking.process, Filter.process,
        Peaking._recalculate_coefficients.
      rewrite Hc. cbn. rewrite Henv. cbn. discriminate.
Qed.

Lemma sinh_nonneg (x : R) : 0 <= x -> 0 <= sinh x.
Proof.
  intros [Hpos | <-].
  - left. rewrite <- sinh_0. now apply sinh_lt.
  - rewrite sinh_0. lra.
Qed.

Lemma ln_2_positive : 0 < ln 2.
Proof. pose proof ln_lt_2. lra. Qed.

(** Below the Nyquist frequency and with a bandwidth that is not
    negative, the coefficients can be computed. *)
Lemma peaking_coefficients_below_nyquist (self : Filter.t) (center : R) :
  Filter.center_frequency self = PyNum center ->
  0 < center ->
  2 * center < IZR (Filter.sampling_rate self) ->
  0 <= Filter.bandwidth self ->
  exists c, Peaking.peaking_coefficients self = Ok c.
Proof.
  intros Hc Hpos Hnyq Hbw.
  set (rate := IZR (Filter.sampling_rate self)) in *.
  assert (Hrate : 0 < rate) by lra.
  pose proof (Rinv_0_lt_compat _ Hrate) as Hinv.
  assert (Hunit : rate * / rate = 1) by (apply Rinv_r; lra).
  pose proof PI_RGT_0 as Hpi.
  set (w := 2 * PI * center / rate).
  assert (Hw : Filter.w0 self = Ok w).
  { unfold Filter.w0. rewrite Hc. cbn [bind as_number].
    apply float_div_ok. fold rate. lra. }
  assert (Hfrac : 0 < 2 * center * / rate < 1) by (split; nra).
  assert (Hw_eq : w = PI * (2 * center * / rate)) by (unfold w, Rdiv; ring).
  assert (Hw_lo : 0 < w).
  { rewrite Hw_eq. apply Rmult_lt_0_compat; lra. }
  assert (Hw_hi : w < PI).
  { rewrite Hw_eq. rewrite <- (Rmult_1_r PI) at 2.
    apply Rmult_lt_compat_l; lra. }
  pose proof (sin_gt_0 w Hw_lo Hw_hi) as Hsin.
  eexists. apply (peaking_coefficients_ok self w Hw); [lra |].
  cbn [peaking_formula Filter.a0].
  pose proof (A_positive self) as HA.
  pose proof ln_2_positive as Hln.
  assert (Harg : 0 <= ln 2 / 2 * Filter.bandwidth self * w / sin w).
  { apply Rmult_le_pos; [| left; now apply Rinv_0_lt_compat].
    apply Rmult_le_pos; [| lra]. apply Rmult_le_pos; lra. }
  apply sinh_nonneg in Harg.
  assert (Halpha :
    0 <= sin w * sinh (ln 2 / 2 * Filter.bandwidth self * w / sin w) / Filter.A self).
  { apply Rmult_le_pos; [| left; now apply Rinv_0_lt_compat].
    apply Rmult_le_pos; lra. }
  lra.
Qed.

Lemma plain_filter_coefficients :
  exists c, Peaking.peaking_coefficients plain_filter = Ok c.
Proof.
  apply (peaking_coefficients_below_nyquist plain_filter 2000).
  - reflexivity.
  - lra.
  - simpl. lra.
  - simpl. lra.
Qed.

(** C6 as stated fails for the 0 dB filter centred at 0 Hz: w0 is 0, so
    is its sine, and [alpha] divides by it; [process] raises and returns
    no sample. *)
Lemma peaking_zero_gain_at_zero_hertz_raises :
  Peaking.process filter_at_zero_hertz 1000 100 = Raise ZeroDivisionError /\
  forall self',
    Peaking.process filter_at_zero_hertz 1000 100 <> Ok (1000%Z, self').
Proof.
  assert (E : Peaking.process filter_at_zero_hertz 1000 100
              = Raise ZeroDivisionError).
  { unfold Peaking.process, Filter.process, Peaking._recalculate_coefficients,
      Peaking.peaking_coefficients, Filter.alpha, Filter.w0_sine, Filter.w0.
    cbn [filter_at_zero_hertz Filter.__init__ Filter.center_frequency
         Filter.sampling_rate sound_8000 Sound.sampling_rate
         as_number bind].
    rewrite float_div_ok by lra. cbn [bind].
    replace (2 * PI * 0 / 8000) with 0 by (unfold Rdiv; ring).
    rewrite sin_0, float_div_zero. reflexivity. }
  split; [exact E |].
  intros self'. rewrite E. discriminate.
Qed.

(** The first call of [process] on [swept_filter]: the coefficients are
    computed at the starting 2000 Hz, where w0 is pi/2 and [a1] is 0,
    and only then does the envelope move the centre to 1 Hz. *)
Lemma swept_filter_first_call :
  exists new_sample self' c,
    Peaking.process swept_filter 1000 100 = Ok (new_sample, self') /\
    Peaking.peaking_coefficients swept_filter = Ok c /\
    Filter.coefficients self' = Some c /\
    Filter.a1 c = 0 /\
    Filter.center_frequency self' = PyNum 1 /\
    Filter.sampling_rate self' = 8000%Z.
Proof.
  destruct (peaking_coefficients_below_nyquist swept_filter 2000)
    as [c Hc]; [reflexivity | lra | simpl; lra | simpl; lra |].
  pose proof (get_value_index_0 frequency_sweep 2000 100) as Henv.
  cbn [frequency_sweep Envelope.type Envelope.attack_length] in Henv.
  specialize (Henv ltac:(lra)).
  assert (Hstep : exists new_sample self',
    Peaking.process swept_filter 1000 100 = Ok (new_sample, self')).
  { unfold Peaking.process, Filter.process, Peaking._recalculate_coefficients.
    rewrite Hc. cbn [bind Filter.set_coefficients Filter.envelope
                     swept_filter Filter.__init__ Filter.starting_frequency
                     Filter.sample_number].
    rewrite Henv. cbn. eauto. }
  destruct Hstep as (new_sample & self' & Hstep).
  exists new_sample, self', c.
  pose proof (process_inv _ _ _ _ _ Hstep)
    as (c' & Hc' & Hstored & Hcf & _ & _ & Hrate & _).
  rewrite Hc in Hc'. injection Hc' as <-.
  cbn [swept_filter Filter.__init__ Filter.envelope Filter.starting_frequency
       Filter.sample_number] in Hcf.
  rewrite Henv in Hcf. injection Hcf as Hcf.
  repeat split; try assumption; try (now symmetry).
  apply peaking_coefficients_inv in Hc as (w & Hw & _ & _ & ->).
  unfold Filter.w0 in Hw.
  cbn [swept_filter Filter.__init__ Filter.center_frequency
       Filter.sampling_rate sound_8000 Sound.sampling_rate as_number bind]
    in Hw.
  apply float_div_inv in Hw as [_ ->].
  cbn [peaking_formula Filter.a1].
  replace (2 * PI * 2000 / 8000) with (PI / 2) by field.
  rewrite cos_PI2. unfold Rdiv. ring.
Qed.

(** C1 on the code: after the first call of [process] on [swept_filter]
    the stored coefficients are those of the centre frequency the call
    started with, 2000 Hz, while the centre frequency is now the
    envelope's 1 Hz; recomputing the coefficients from the filter as the
    call left it does not give the stored ones. *)
Theorem process_leaves_stale_coefficients :
  exists new_sample self' c,
    Peaking.process swept_filter 1000 100 = Ok (new_sample, self') /\
    Peaking.peaking_coefficients swept_filter = Ok c /\
    Filter.coefficients self' = Some c /\
    Filter.center_frequency self' = PyNum 1 /\
    Peaking.peaking_coefficients self' <> Ok c.
Proof.
  destruct swept_filter_first_call
    as (new_sample & self' & c & Hstep & Hc & Hstored & Ha1 & Hcf & Hrate).
  exists new_sample, self', c.
  repeat split; try assumption.
  intros Hfresh.
  apply peaking_coefficients_inv in Hfresh as (w & Hw & _ & Ha0 & Hform).
  unfold Filter.w0 in Hw. rewrite Hcf, Hrate in Hw.
  cbn [as_number bind] in Hw.
  apply float_div_inv in Hw as [_ ->].
  rewrite Hform in Ha1, Ha0. cbn [peaking_formula Filter.a1 Filter.a0] in *.
  pose proof PI_RGT_0 as Hpi.
  assert (Hcos : 0 < cos (2 * PI * 1 / 8000)) by (apply cos_gt_0; lra).
  apply Rmult_integral in Ha1 as [Hnum | Hinv].
  - lra.
  - now apply Rinv_neq_0_compat in Ha0.
Qed.

(** ** More on the conversions *)

Lemma py_int_opp (x : R) : py_int (- x) = (- py_int x)%Z.
Proof.
  unfold py_int.
  destruct (Rle_dec 0 x) as [Hx | Hx]; destruct (Rle_dec 0 (- x)) as [Hn | Hn].
  - assert (x = 0) by lra. subst x. rewrite Ropp_0.
    change 0 with (IZR 0). rewrite Int_part_IZR. reflexivity.
  - rewrite Ropp_involutive. reflexivity.
  - lia.
  - lra.
Qed.

(** Truncation moves toward zero and by less than 1. *)
Lemma py_int_nonneg (x : R) :
  0 <= x -> (0 <= py_int x)%Z /\ IZR (py_int x) <= x /\ x < IZR (py_int x) + 1.
Proof.
  intros Hx. unfold py_int.
  destruct (Rle_dec 0 x) as [_ | N]; [| contradiction].
  destruct (base_Int_part x) as [Hle Hgt].
  repeat split; try lra.
  apply le_IZR. apply Rnot_lt_le. intros Hneg.
  assert (Hle1 : (Int_part x <= -1)%Z) by (apply lt_IZR in Hneg; lia).
  apply IZR_le in Hle1. lra.
Qed.

Lemma py_int_abs_le (x : R) : Rabs (IZR (py_int x)) <= Rabs x.
Proof.
  destruct (Rle_dec 0 x) as [Hx | Hx].
  - destruct (py_int_nonneg x Hx) as (H0 & Hle & _). apply IZR_le in H0.
    rewrite !Rabs_pos_eq by lra. exact Hle.
  - assert (Hn : 0 <= - x) by lra.
    destruct (py_int_nonneg (- x) Hn) as (H0 & Hle & _). apply IZR_le in H0.
    rewrite py_int_opp, opp_IZR in H0, Hle.
    rewrite <- (Rabs_Ropp x), <- (Rabs_Ropp (IZR (py_int x))).
    rewrite !Rabs_pos_eq by lra. exact Hle.
Qed.

(** A quotient of a part by the whole. *)
Lemma ratio_unit (part whole : R) :
  0 <= part < whole -> 0 <= part / whole < 1.
Proof.
  intros [H0 H1].
  assert (Hw : 0 < whole) by lra.
  pose proof (Rinv_0_lt_compat _ Hw) as Hinv.
  assert (Hunit : whole * / whole = 1) by (apply Rinv_r; lra).
  unfold Rdiv. split; nra.
Qed.

Lemma scale_unit (d t : R) : 0 <= d -> 0 <= t <= 1 -> 0 <= d * t <= d.
Proof. intros Hd [H0 H1]. split; nra. Qed.

(** ** More on envelopes *)

Section EnvelopeValues.

Variable self : Envelope.t.
Variable default_value : R.
Variable number_of_samples : R.

(** The value in the attack phase, from sample index 0 on. *)
Lemma get_value_attack (sample_index : Z) :
  (0 <= sample_index)%Z ->
  Envelope.get_phase self sample_index number_of_samples
    = Some EnvelopePhase.attack ->
  let ramp :=
    default_value *
    (IZR sample_index / (Envelope.attack_length self * number_of_samples)) in
  Envelope.get_value self default_value sample_index number_of_samples =
  Ok (PyNum match Envelope.type self with
            | EnvelopeType.amplitude => ramp
            | EnvelopeType.frequency => if Req_dec_T ramp 0 then 1 else ramp
            end).
Proof.
  intros Hidx Hp ramp. apply IZR_le in Hidx.
  pose proof (get_phase_attack_inv _ _ _ Hp) as Hlt. unfold_ends.
  unfold Envelope.get_value. rewrite Hp.
  rewrite float_div_ok by lra. cbn [bind]. fold ramp.
  destruct (Envelope.type self); [reflexivity |].
  destruct (Req_dec_T ramp 0); reflexivity.
Qed.

Lemma get_value_sustain (sample_index : Z) :
  Envelope.get_phase self sample_index number_of_samples
    = Some EnvelopePhase.sustain ->
  Envelope.get_value self default_value sample_index number_of_samples =
  Ok (PyNum (Envelope.resolved_sustain_level self default_value)).
Proof.
  intros Hp. unfold Envelope.get_value. rewrite Hp. reflexivity.
Qed.

(** The value in the release phase. *)
Lemma get_value_release (sample_index : Z) :
  Envelope.get_phase self sample_index number_of_samples
    = Some EnvelopePhase.release ->
  Envelope.get_value self default_value sample_index number_of_samples =
  Ok (PyNum
    ((1 - (IZR sample_index - sustain_end self number_of_samples) /
          (Envelope.release_length self * number_of_samples))
     * Envelope.resolved_sustain_level self default_value)).
Proof.
  intros Hp. pose proof (get_phase_release_inv _ _ _ Hp) as [Hlo Hhi].
  unfold_ends.
  unfold Envelope.get_value. rewrite Hp.
  rewrite float_div_ok by lra. reflexivity.
Qed.

Lemma get_value_no_phase (sample_index : Z) :
  Envelope.get_phase self sample_index number_of_samples = None ->
  Envelope.get_value self default_value sample_index number_of_samples
  = Ok PyNone.
Proof.
  intros Hp. unfold Envelope.get_value. rewrite Hp. reflexivity.
Qed.

End EnvelopeValues.

Lemma resolved_sustain_amplitude (self : Envelope.t) (default_value : R) :
  Envelope.type self = EnvelopeType.amplitude ->
  0 <= Envelope.sustain_level self <= default_value ->
  0 <= Envelope.resolved_sustain_level self default_value <= default_value.
Proof.
  intros Ht Hs. unfold Envelope.resolved_sustain_level. rewrite Ht.
  destruct (Req_dec_T (Envelope.sustain_level self) 0); lra.
Qed.

Lemma resolved_sustain_frequency_positive (self : Envelope.t) (default_value : R) :
  Envelope.type self = EnvelopeType.frequency ->
  0 < default_value ->
  0 < Envelope.resolved_sustain_level self default_value.
Proof.
  intros Ht Hd.
  unfold Envelope.resolved_sustain_level, Envelope.get_frequency_sustain_level.
  rewrite Ht.
  destruct (Req_dec_T (Envelope.sustain_level self) 0); [exact Hd |].
  apply Rmult_lt_0_compat; [exact Hd |]. unfold Rpower at 1. apply exp_pos.
Qed.

(** X1.  An amplitude envelope whose sustain level lies between 0 and the
    base amplitude never leaves that range: from sample index 0 on,
    every number [get_value] returns is between 0 and the base. *)
Theorem amplitude_envelope_within_base
    (self : Envelope.t) (default_value : R) (sample_index : Z)
    (number_of_samples v : R) :
  Envelope.type self = EnvelopeType.amplitude ->
  0 <= Envelope.sustain_level self <= default_value ->
  (0 <= sample_index)%Z ->
  Envelope.get_value self default_value sample_index number_of_samples
    = Ok (PyNum v) ->
  0 <= v <= default_value.
Proof.
  intros Ht Hs Hidx Hv.
  pose proof (resolved_sustain_amplitude self default_value Ht Hs) as Hres.
  assert (Hbase : 0 <= default_value) by lra.
  pose proof (IZR_le _ _ Hidx) as Hi.
  destruct (get_phase_cases self number_of_samples sample_index)
    as [[H E] | [[H E] | [(_ & H & E) | [(_ & _ & H & E) | (_ & _ & _ & _ & E)]]]];
    cbv zeta in *; unfold_ends.
  - rewrite (get_value_attack _ _ _ _ Hidx E), Ht in Hv. injection Hv as <-.
    apply scale_unit; [exact Hbase |].
    pose proof (ratio_unit (IZR sample_index)
                  (Envelope.attack_length self * number_of_samples)). lra.
  - rewrite (get_value_decay _ _ _ _ E) in Hv. injection Hv as <-.
    unfold_ends.
    pose proof (ratio_unit
      (IZR sample_index - Envelope.attack_length self * number_of_samples)
      (Envelope.decay_length self * number_of_samples) ltac:(lra)) as Hr.
    pose proof (scale_unit default_value
      (1 - (IZR sample_index - Envelope.attack_length self * number_of_samples)
           / (Envelope.decay_length self * number_of_samples))
      Hbase ltac:(lra)) as Hnew.
    split.
    + eapply Rle_trans; [| apply Rmax_r]. lra.
    + apply Rmax_lub; lra.
  - rewrite (get_value_sustain _ _ _ _ E) in Hv. injection Hv as <-. exact Hres.
  - rewrite (get_value_release _ _ _ _ E) in Hv. injection Hv as <-.
    unfold_ends.
    pose proof (ratio_unit
      (IZR sample_index -
       (Envelope.attack_length self * number_of_samples +
        Envelope.decay_length self * number_of_samples +
        Envelope.sustain_length self * number_of_samples))
      (Envelope.release_length self * number_of_samples) ltac:(lra)) as Hr.
    rewrite Rmult_comm.
    pose proof (scale_unit (Envelope.resolved_sustain_level self default_value)
      (1 - (IZR sample_index -
            (Envelope.attack_length self * number_of_samples +
             Envelope.decay_length self * number_of_samples +
             Envelope.sustain_length self * number_of_samples))
           / (Envelope.release_length self * number_of_samples))
      ltac:(lra) ltac:(lra)). lra.
  - rewrite (get_value_no_phase _ _ _ _ E) in Hv. discriminate.
Qed.

Lemma envelope_without_attack_at_5 :
  Envelope.get_value envelope_without_attack 100 5 8 = Ok (PyNum 100).
Proof.
  destruct (get_phase_cases envelope_without_attack 8 5)
    as [[H E] | [[H E] | [(_ & H & E) | [(_ & _ & H & E) | (_ & _ & _ & H & E)]]]];
    cbv zeta in *; unfold_ends; simpl in *; try lra.
  rewrite (get_value_sustain _ _ _ _ E).
  unfold Envelope.resolved_sustain_level. simpl.
  destruct (Req_dec_T 0 0) as [_ | N]; [reflexivity | now elim N].
Qed.

Lemma amplitude_envelope_within_base_witness : 0 <= 100 <= 100.
Proof.
  apply (amplitude_envelope_within_base envelope_without_attack 100 5 8 100).
  - reflexivity.
  - simpl. lra.
  - lia.
  - exact envelope_without_attack_at_5.
Defined.

Lemma frequency_value_positive
    (self : Envelope.t) (default_value : R) (sample_index : Z)
    (number_of_samples v : R) :
  Envelope.type self = EnvelopeType.frequency ->
  0 < default_value ->
  (0 <= sample_index)%Z ->
  Envelope.get_value self default_value sample_index number_of_samples
    = Ok (PyNum v) ->
  0 < v.
Proof.
  intros Ht Hbase Hidx Hv.
  pose proof (resolved_sustain_frequency_positive self default_value Ht Hbase)
    as Hres.
  pose proof (IZR_le _ _ Hidx) as Hi.
  destruct (get_phase_cases self number_of_samples sample_index)
    as [[H E] | [[H E] | [(_ & H & E) | [(_ & _ & H & E) | (_ & _ & _ & _ & E)]]]];
    cbv zeta in *; unfold_ends.
  - rewrite (get_value_attack _ _ _ _ Hidx E), Ht in Hv.
    pose proof (ratio_unit (IZR sample_index)
                  (Envelope.attack_length self * number_of_samples)
                  ltac:(lra)) as Hr.
    match type of Hv with
    | context [Req_dec_T ?x 0] => destruct (Req_dec_T x 0) as [Hz | Hnz]
    end; injection Hv as <-; [lra |].
    assert (0 <= default_value *
              (IZR sample_index /
               (Envelope.attack_length self * number_of_samples)))
      by (apply Rmult_le_pos; lra).
    lra.
  - rewrite (get_value_decay _ _ _ _ E) in Hv. injection Hv as <-.
    eapply Rlt_le_trans; [exact Hres | apply Rmax_r].
  - rewrite (get_value_sustain _ _ _ _ E) in Hv. injection Hv as <-. exact Hres.
  - rewrite (get_value_release _ _ _ _ E) in Hv. injection Hv as <-.
    unfold_ends.
    pose proof (ratio_unit
      (IZR sample_index -
       (Envelope.attack_length self * number_of_samples +
        Envelope.decay_length self * number_of_samples +
        Envelope.sustain_length self * number_of_samples))
      (Envelope.release_length self * number_of_samples) ltac:(lra)) as Hr.
    apply Rmult_lt_0_compat; lra.
  - rewrite (get_value_no_phase _ _ _ _ E) in Hv. discriminate.
Qed.

(** X2.  A frequency envelope on a positive base frequency never gives a
    frequency of 0 or below: from sample index 0 on, every number
    [get_value] returns is positive. *)
Theorem frequency_envelope_positive
    (self : Envelope.t) (default_value : R) (sample_index : Z)
    (number_of_samples v : R) :
  Envelope.type self = EnvelopeType.frequency ->
  0 < default_value ->
  (0 <= sample_index)%Z ->
  Envelope.get_value self default_value sample_index number_of_samples
    = Ok (PyNum v) ->
  0 < v.
Proof. exact (frequency_value_positive self default_value sample_index
                number_of_samples v). Qed.

Lemma frequency_sweep_at_0 :
  Envelope.get_value frequency_sweep 2000 0 100 = Ok (PyNum 1).
Proof. apply get_value_index_0. simpl. lra. Qed.

Lemma frequency_envelope_positive_witness : 0 < 1.
Proof.
  apply (frequency_envelope_positive frequency_sweep 2000 0 100 1).
  - reflexivity.
  - lra.
  - lia.
  - exact frequency_sweep_at_0.
Defined.

(** X3.  In the release phase, with a positive resolved sustain level, the
    value falls strictly from one sample index to a later one; it stays
    positive, so no index of the phase gives 0, and never exceeds the
    sustain level. *)
Theorem release_strictly_decreasing_positive
    (self : Envelope.t) (default_value number_of_samples : R) (i j : Z) :
  0 < Envelope.resolved_sustain_level self default_value ->
  Envelope.get_phase self i number_of_samples = Some EnvelopePhase.release ->
  Envelope.get_phase self j number_of_samples = Some EnvelopePhase.release ->
  (i < j)%Z ->
  exists vi vj,
    Envelope.get_value self default_value i number_of_samples = Ok (PyNum vi) /\
    Envelope.get_value self default_value j number_of_samples = Ok (PyNum vj) /\
    0 < vj /\ vj < vi /\
    vi <= Envelope.resolved_sustain_level self default_value.
Proof.
  intros Hres Hi Hj Hij. apply IZR_lt in Hij.
  pose proof (get_phase_release_inv _ _ _ Hi) as [Hilo Hihi].
  pose proof (get_phase_release_inv _ _ _ Hj) as [Hjlo Hjhi].
  unfold release_end in *.
  set (start := sustain_end self number_of_samples) in *.
  set (length := Envelope.release_length self * number_of_samples) in *.
  set (level := Envelope.resolved_sustain_level self default_value) in *.
  assert (Hlen : 0 < length) by lra.
  pose proof (Rinv_0_lt_compat _ Hlen) as Hinv.
  pose proof (ratio_unit (IZR i - start) length ltac:(lra)) as Hri.
  pose proof (ratio_unit (IZR j - start) length ltac:(lra)) as Hrj.
  assert (Hlt : (IZR i - start) / length < (IZR j - start) / length).
  { unfold Rdiv. apply Rmult_lt_compat_r; lra. }
  do 2 eexists.
  split; [apply get_value_release; exact Hi |].
  split; [apply get_value_release; exact Hj |].
  fold start length level.
  repeat split.
  - apply Rmult_lt_0_compat; lra.
  - apply Rmult_lt_compat_r; lra.
  - rewrite <- (Rmult_1_l level) at 2.
    apply Rmult_le_compat_r; lra.
Qed.

Lemma envelope_without_attack_release (i : Z) :
  (6 <= i < 8)%Z ->
  Envelope.get_phase envelope_without_attack i 8 = Some EnvelopePhase.release.
Proof.
  intros [Hlo Hhi]. apply IZR_le in Hlo. apply IZR_lt in Hhi.
  destruct (get_phase_cases envelope_without_attack 8 i)
    as [[H E] | [[H E] | [(_ & H & E) | [(_ & _ & H & E) | (_ & _ & _ & H & E)]]]];
    cbv zeta in *; unfold_ends; simpl in *; try lra.
  exact E.
Qed.

Lemma release_strictly_decreasing_positive_witness :
  exists vi vj,
    Envelope.get_value envelope_without_attack 100 6 8 = Ok (PyNum vi) /\
    Envelope.get_value envelope_without_attack 100 7 8 = Ok (PyNum vj) /\
    0 < vj /\ vj < vi /\
    vi <= Envelope.resolved_sustain_level envelope_without_attack 100.
Proof.
  apply (release_strictly_decreasing_positive envelope_without_attack 100 8 6 7).
  - unfold Envelope.resolved_sustain_level. simpl.
    destruct (Req_dec_T 0 0); lra.
  - apply envelope_without_attack_release. lia.
  - apply envelope_without_attack_release. lia.
  - lia.
Defined.

(** X4.  For an amplitude envelope on a base that is not negative, the attack
    ramp does not fall: over the sample indices of the attack phase from
    0 on, a later index never gets a smaller value. *)
Theorem amplitude_attack_non_decreasing
    (self : Envelope.t) (default_value number_of_samples : R) (i j : Z) :
  Envelope.type self = EnvelopeType.amplitude ->
  0 <= default_value ->
  Envelope.get_phase self i number_of_samples = Some EnvelopePhase.attack ->
  Envelope.get_phase self j number_of_samples = Some EnvelopePhase.attack ->
  (0 <= i <= j)%Z ->
  exists vi vj,
    Envelope.get_value self default_value i number_of_samples = Ok (PyNum vi) /\
    Envelope.get_value self default_value j number_of_samples = Ok (PyNum vj) /\
    0 <= vi /\ vi <= vj /\ vj <= default_value.
Proof.
  intros Ht Hbase Hi Hj [H0 Hij].
  pose proof (IZR_le _ _ H0) as Hi0. pose proof (IZR_le _ _ Hij) as Hij'.
  pose proof (get_phase_attack_inv _ _ _ Hi) as Hilt.
  pose proof (get_phase_attack_inv _ _ _ Hj) as Hjlt.
  unfold_ends.
  set (length := Envelope.attack_length self * number_of_samples) in *.
  assert (Hlen : 0 < length) by lra.
  pose proof (Rinv_0_lt_compat _ Hlen) as Hinv.
  pose proof (ratio_unit (IZR i) length ltac:(lra)) as Hri.
  pose proof (ratio_unit (IZR j) length ltac:(lra)) as Hrj.
  assert (Hle : IZR i / length <= IZR j / length).
  { unfold Rdiv. apply Rmult_le_compat_r; lra. }
  do 2 eexists.
  split; [rewrite (get_value_attack _ _ _ _ H0 Hi), Ht; reflexivity |].
  assert (Hj0 : (0 <= j)%Z) by lia.
  split; [rewrite (get_value_attack _ _ _ _ Hj0 Hj), Ht; reflexivity |].
  fold length.
  repeat split.
  - apply Rmult_le_pos; lra.
  - apply Rmult_le_compat_l; lra.
  - pose proof (scale_unit default_value (IZR j / length) Hbase ltac:(lra)).
    lra.
Qed.

(** An amplitude envelope with attack over the first half. *)
Lemma short_amplitude_env_attack (i : Z) :
  (0 <= i < 2)%Z ->
  Envelope.get_phase short_amplitude_env i 8 = Some EnvelopePhase.attack.
Proof.
  intros [Hlo Hhi]. apply IZR_le in Hlo. apply IZR_lt in Hhi.
  destruct (get_phase_cases short_amplitude_env 8 i)
    as [[H E] | [[H E] | [(H & _ & E) | [(H & _ & _ & E) | (H & _ & _ & _ & E)]]]];
    cbv zeta in *; unfold_ends; simpl in *; try lra.
  exact E.
Qed.

Lemma amplitude_attack_non_decreasing_witness :
  exists vi vj,
    Envelope.get_value short_amplitude_env 100 0 8 = Ok (PyNum vi) /\
    Envelope.get_value short_amplitude_env 100 1 8 = Ok (PyNum vj) /\
    0 <= vi /\ vi <= vj /\ vj <= 100.
Proof.
  apply (amplitude_attack_non_decreasing short_amplitude_env 100 8 0 1).
  - reflexivity.
  - lra.
  - apply short_amplitude_env_attack. lia.
  - apply short_amplitude_env_attack. lia.
  - lia.
Defined.



(** X6.  For an envelope of the data model and a sample count that is not
    negative, the phases come in order: a later sample index is never in
    an earlier phase, and once no phase is selected none is again. *)
Theorem phase_never_goes_back
    (self : Envelope.t) (number_of_samples : R) (i j : Z) :
  Envelope.well_formed self ->
  0 <= number_of_samples ->
  (i <= j)%Z ->
  (phase_rank (Envelope.get_phase self i number_of_samples) <=
   phase_rank (Envelope.get_phase self j number_of_samples))%nat.
Proof.
  intros ([Ha _] & [Hd _] & [Hs _] & [Hr _]) Htotal Hij.
  apply IZR_le in Hij.
  pose proof (Rmult_le_pos _ _ Ha Htotal) as Ha'.
  pose proof (Rmult_le_pos _ _ Hd Htotal) as Hd'.
  pose proof (Rmult_le_pos _ _ Hs Htotal) as Hs'.
  pose proof (Rmult_le_pos _ _ Hr Htotal) as Hr'.
  destruct (get_phase_cases self number_of_samples i)
    as [[Hi Ei] | [[Hi Ei] | [(_ & Hi & Ei) | [(_ & _ & Hi & Ei)
        | (_ & _ & _ & Hi & Ei)]]]];
    destruct (get_phase_cases self number_of_samples j)
    as [[Hj Ej] | [[Hj Ej] | [(_ & Hj & Ej) | [(_ & _ & Hj & Ej)
        | (_ & _ & _ & Hj & Ej)]]]];
    cbv zeta in *; rewrite Ei, Ej; cbn [phase_rank];
    try lia; exfalso; unfold_ends; lra.
Qed.

Lemma phase_never_goes_back_witness :
  (phase_rank (Envelope.get_phase envelope_without_attack 1 8) <=
   phase_rank (Envelope.get_phase envelope_without_attack 7 8))%nat.
Proof.
  apply (phase_never_goes_back envelope_without_attack 8 1 7).
  - unfold Envelope.well_formed. simpl. lra.
  - lra.
  - lia.
Defined.

(** From sample index 0 on [get_value] always returns. *)
Lemma get_value_returns
    (self : Envelope.t) (default_value : R) (sample_index : Z)
    (number_of_samples : R) :
  (0 <= sample_index)%Z ->
  exists v,
    Envelope.get_value self default_value sample_index number_of_samples
    = Ok v.
Proof.
  intros Hidx.
  destruct (get_phase_cases self number_of_samples sample_index)
    as [[H E] | [[H E] | [(_ & H & E) | [(_ & _ & H & E) | (_ & _ & _ & H & E)]]]];
    cbv zeta in *.
  - rewrite (get_value_attack _ _ _ _ Hidx E). eexists; reflexivity.
  - rewrite (get_value_decay _ _ _ _ E). eexists; reflexivity.
  - rewrite (get_value_sustain _ _ _ _ E). eexists; reflexivity.
  - rewrite (get_value_release _ _ _ _ E). eexists; reflexivity.
  - rewrite (get_value_no_phase _ _ _ _ E). eexists; reflexivity.
Qed.

Lemma get_value_past_end
    (self : Envelope.t) (default_value : R) (sample_index : Z)
    (number_of_samples : R) :
  Envelope.well_formed self ->
  0 <= number_of_samples ->
  release_end self number_of_samples <= IZR sample_index ->
  Envelope.get_value self default_value sample_index number_of_samples
  = Ok PyNone.
Proof.
  intros ([Ha _] & [Hd _] & [Hs _] & [Hr _]) Htotal Hpast.
  pose proof (Rmult_le_pos _ _ Ha Htotal) as Ha'.
  pose proof (Rmult_le_pos _ _ Hd Htotal) as Hd'.
  pose proof (Rmult_le_pos _ _ Hs Htotal) as Hs'.
  pose proof (Rmult_le_pos _ _ Hr Htotal) as Hr'.
  apply get_value_no_phase.
  destruct (get_phase_cases self number_of_samples sample_index)
    as [[H _] | [[H _] | [(_ & H & _) | [(_ & _ & H & _) | (_ & _ & _ & _ & E)]]]];
    cbv zeta in *; unfold_ends; try exact E; exfalso; lra.
Qed.

(** ** More on tones *)

Lemma interval_above_one : 1 < Rpower 2 (1 / 12).
Proof.
  pose proof ln_2_positive as Hln.
  assert (Hpos : 0 < 1 / 12 * ln 2) by lra.
  apply exp_increasing in Hpos. rewrite exp_0 in Hpos. exact Hpos.
Qed.

(** X8.  A higher note has a higher frequency. *)
Theorem frequency_increases_with_note (note1 note2 : R) :
  note1 < note2 ->
  Tone.__convert_note_to_freq note1 < Tone.__convert_note_to_freq note2.
Proof.
  intros Hlt. unfold Tone.__convert_note_to_freq.
  apply Rmult_lt_compat_l; [lra |].
  apply Rpower_lt; [apply interval_above_one | exact Hlt].
Qed.

Lemma frequency_increases_with_note_witness :
  Tone.__convert_note_to_freq 0 < Tone.__convert_note_to_freq 7.
Proof.
  apply (frequency_increases_with_note 0 7). lra.
Defined.

(** X10.  A sine sample is never larger in magnitude than the amplitude
    resolved for its sample index. *)
Theorem sine_sample_within_amplitude
    (self : SineTone.t) (sampling_rate sample_index : Z)
    (previous_phase : pyobj) (sample : Z) (phase : R) :
  SineTone._create_sample self sampling_rate sample_index previous_phase
    = Ok (sample, phase) ->
  exists amplitude_i,
    Tone._get_amplitude (SineTone.tone self) sampling_rate sample_index
      = Ok (PyNum amplitude_i) /\
    Rabs (IZR sample) <= Rabs amplitude_i.
Proof.
  unfold SineTone._create_sample. intros H.
  apply bind_ok_inv in H as (aobj & Ha & H).
  apply bind_ok_inv in H as ([sine_value p] & Hs & H).
  apply bind_ok_inv in H as (a & Hnum & H).
  apply as_number_ok_inv in Hnum. subst aobj.
  injection H as <- <-.
  exists a. split; [exact Ha |].
  eapply Rle_trans; [apply py_int_abs_le |].
  rewrite Rabs_mult.
  apply get_sine_value_inv in Hs as (_ & _ & _ & _ & _ & ->).
  rewrite <- (Rmult_1_l (Rabs a)) at 2.
  apply Rmult_le_compat_r; [apply Rabs_pos |].
  apply Rabs_le. destruct (SIN_bound p) as [Hlo Hhi]. lra.
Qed.

Lemma sine_sample_within_amplitude_witness :
  exists amplitude_i,
    Tone._get_amplitude (SineTone.tone sine_sustained) 1760 0
      = Ok (PyNum amplitude_i) /\
    Rabs (IZR 0) <= Rabs amplitude_i.
Proof.
  apply (sine_sample_within_amplitude sine_sustained 1760 0 (PyNum 0) 0
           (PI / 2)).
  exact sine_sustained_first_sample.
Defined.

Lemma copysign_one (y : R) :
  y <> 0 -> (0 < y /\ copysign 1 y = 1) \/ (y < 0 /\ copysign 1 y = -1).
Proof.
  intros Hy. unfold copysign. rewrite Rabs_R1.
  destruct (Rlt_dec y 0) as [Hneg | Hpos]; [right | left]; split; lra.
Qed.

(** X11.  A square sample is 0 where the sine value is 0, the truncated
    amplitude where the sine is positive and its opposite where the sine
    is negative; the phase is the one a sine tone would have. *)
Theorem square_sample_is_signed_amplitude
    (self : SquareTone.t) (sampling_rate sample_index : Z)
    (previous_phase : pyobj) (sample : Z) (phase : R) :
  SquareTone._create_sample self sampling_rate sample_index previous_phase
    = Ok (sample, phase) ->
  Tone._get_sine_value (SquareTone.tone self) sampling_rate sample_index
    previous_phase = Ok (sin phase, phase) /\
  ((sin phase = 0 /\ sample = 0%Z) \/
   exists amplitude_i,
     Tone._get_amplitude (SquareTone.tone self) sampling_rate sample_index
       = Ok (PyNum amplitude_i) /\
     ((0 < sin phase /\ sample = py_int amplitude_i) \/
      (sin phase < 0 /\ sample = (- py_int amplitude_i)%Z))).
Proof.
  unfold SquareTone._create_sample. intros H.
  apply bind_ok_inv in H as ([sine_value p] & Hs & H).
  apply bind_ok_inv in H as (aobj & Ha & H).
  pose proof (get_sine_value_inv _ _ _ _ _ _ Hs) as (_ & _ & _ & _ & _ & Hsin).
  subst sine_value.
  destruct (Req_dec_T (sin p) 0) as [Hz | Hnz].
  - injection H as <- <-. split; [exact Hs |]. left. now split.
  - apply bind_ok_inv in H as (a & Hnum & H).
    apply as_number_ok_inv in Hnum. subst aobj.
    injection H as <- <-. split; [exact Hs |]. right.
    exists a. split; [exact Ha |].
    destruct (copysign_one (sin p) Hnz) as [[Hpos ->] | [Hneg ->]].
    + left. split; [exact Hpos |]. now rewrite Rmult_1_r.
    + right. split; [exact Hneg |].
      replace (a * -1) with (- a) by ring. apply py_int_opp.
Qed.

Lemma plain_square_first_sample :
  SquareTone._create_sample plain_square 1760 0 (PyNum 0)
  = Ok (100%Z, PI / 2).
Proof.
  pose proof (frequency_of_note_0 plain_tone eq_refl) as Hf.
  unfold SquareTone._create_sample, Tone._get_amplitude.
  cbn [SquareTone.tone plain_square].
  rewrite get_sine_value_plain by (reflexivity || lia).
  cbn [bind plain_tone Tone.amplitude_env Tone.amplitude]. rewrite Hf.
  replace (0 + 2 * PI / (1 / 440 * 1760)) with (PI / 2) by field.
  rewrite sin_PI2.
  destruct (Req_dec_T 1 0) as [H | _]; [lra |].
  cbn [bind as_number].
  destruct (copysign_one 1 ltac:(lra)) as [[_ ->] | [H _]]; [| lra].
  replace (100 * 1) with (IZR 100) by lra. now rewrite py_int_IZR.
Qed.

Lemma square_sample_is_signed_amplitude_witness :
  Tone._get_sine_value (SquareTone.tone plain_square) 1760 0 (PyNum 0)
    = Ok (sin (PI / 2), PI / 2) /\
  ((sin (PI / 2) = 0 /\ 100%Z = 0%Z) \/
   exists amplitude_i,
     Tone._get_amplitude (SquareTone.tone plain_square) 1760 0
       = Ok (PyNum amplitude_i) /\
     ((0 < sin (PI / 2) /\ 100%Z = py_int amplitude_i) \/
      (sin (PI / 2) < 0 /\ 100%Z = (- py_int amplitude_i)%Z))).
Proof.
  apply (square_sample_is_signed_amplitude plain_square 1760 0 (PyNum 0)).
  exact plain_square_first_sample.
Defined.

(** X12.  A sawtooth tone with no level (levels <= 0) cannot make a sample:
    the loop body never runs, [phase] is never bound, and the return
    raises [UnboundLocalError], whatever the other arguments. *)
Theorem harmonic_saw_without_levels_raises
    (self : HarmonicSawTone.t) (sampling_rate sample_index : Z)
    (previous_phase : pyobj) :
  (HarmonicSawTone.levels self <= 0)%Z ->
  HarmonicSawTone._create_sample self sampling_rate sample_index previous_phase
  = Raise UnboundLocalError.
Proof.
  intros Hlevels. unfold HarmonicSawTone._create_sample, xrange.
  replace (Z.to_nat (HarmonicSawTone.levels self + 1 - 1)) with 0%nat by lia.
  reflexivity.
Qed.

Lemma harmonic_saw_without_levels_raises_witness :
  HarmonicSawTone._create_sample
    {| HarmonicSawTone.tone := plain_tone; HarmonicSawTone.levels := 0 |}
    1760 0 (PyNum 0)
  = Raise UnboundLocalError.
Proof.
  apply (harmonic_saw_without_levels_raises
           {| HarmonicSawTone.tone := plain_tone;
              HarmonicSawTone.levels := 0 |} 1760 0 (PyNum 0)).
  simpl. lia.
Defined.

Lemma xrange_length (start stop : Z) :
  length (xrange start stop) = Z.to_nat (stop - start).
Proof. unfold xrange. now rewrite length_map, length_seq. Qed.

(** X14.  A noise tone always runs to the end with exactly the converted
    number of samples; with random values in [0, 1] and an amplitude
    that is not negative, every sample lies between 0 and the amplitude,
    so noise is never negative. *)
Theorem noise_runs_within_amplitude
    (self : Noise.t) (sound : Sound.t) (st : RandomState) :
  (forall k, 0 <= st k <= 1) ->
  0 <= Noise.amplitude self ->
  let run := fst (__generate self sound st) in
  snd run = None /\
  length (fst run)
    = Z.to_nat (Sound.convert_secs_to_samples sound (Noise.seconds self)) /\
  Forall (fun sample => (0 <= sample)%Z /\ IZR sample <= Noise.amplitude self)
         (fst run).
Proof.
  intros Hrandom Hamp run. unfold run, __generate.
  rewrite noise_generate_from. cbn [fst snd].
  rewrite xrange_length, Z.sub_0_r.
  cbn [seconds Noise.tone_class].
  split; [reflexivity |]. split; [now rewrite length_map, length_seq |].
  apply Forall_forall. intros sample Hin.
  apply in_map_iff in Hin as (k & <- & _).
  destruct (Hrandom k) as [H0 H1].
  assert (Hprod : 0 <= st k * Noise.amplitude self <= Noise.amplitude self)
    by (split; nra).
  destruct (py_int_nonneg _ (proj1 Hprod)) as (Hz & Hle & _).
  split; [exact Hz | lra].
Qed.

Lemma noise_runs_within_amplitude_witness :
  let self := {| Noise.note := PyNone; Noise.amplitude := 100;
                 Noise.seconds := 1; Noise.amplitude_env := None;
                 Noise.frequency_env := None |} in
  let run := fst (__generate self sound_8000 (fun _ => 1 / 2)) in
  snd run = None /\
  length (fst run)
    = Z.to_nat (Sound.convert_secs_to_samples sound_8000 1) /\
  Forall (fun sample => (0 <= sample)%Z /\ IZR sample <= 100) (fst run).
Proof.
  apply (noise_runs_within_amplitude
           {| Noise.note := PyNone; Noise.amplitude := 100;
              Noise.seconds := 1; Noise.amplitude_env := None;
              Noise.frequency_env := None |} sound_8000 (fun _ => 1 / 2)).
  - intros _. lra.
  - simpl. lra.
Defined.

(** X16.  With a frequency envelope of the frequency kind, or none, and a
    sampling rate other than 0, computing the sine value from sample
    index 0 on never divides by zero: if it raises, it raises
    [TypeError], from a [None] in place of a number. *)
Theorem sine_value_fails_only_on_none
    (self : Tone.t) (sampling_rate sample_index : Z)
    (previous_phase : pyobj) (e : PyExc) :
  (forall env, Tone.frequency_env self = Some env ->
               Envelope.type env = EnvelopeType.frequency) ->
  sampling_rate <> 0%Z ->
  (0 <= sample_index)%Z ->
  Tone._get_sine_value self sampling_rate sample_index previous_phase
    = Raise e ->
  e = TypeError.
Proof.
  intros Hkind Hrate Hidx.
  pose proof (frequency_positive self) as Hbase.
  assert (Hr : IZR sampling_rate <> 0) by (now apply not_0_IZR).
  assert (Hstep : forall f, 0 < f ->
    (seconds_per_cycle <- float_div 1 f ;;
     phase_increment <-
       float_div (2 * PI) (seconds_per_cycle * IZR sampling_rate) ;;
     previous <- as_number previous_phase ;;
     Ok (sin (previous + phase_increment), previous + phase_increment))
    = Raise e -> e = TypeError).
  { intros f Hf. rewrite float_div_ok by lra. cbn [bind].
    rewrite float_div_ok.
    - cbn [bind]. destruct previous_phase; cbn; intros H;
        [now injection H as <- | discriminate].
    - apply Rmult_integral_contrapositive_currified; [| exact Hr].
      unfold Rdiv. rewrite Rmult_1_l. apply Rinv_neq_0_compat. lra. }
  unfold Tone._get_sine_value, Tone._get_frequency.
  destruct (Tone.frequency_env self) as [env |] eqn:Henv.
  - destruct (get_value_returns env (Tone.frequency self) sample_index
                (Tone.seconds self * IZR sampling_rate) Hidx) as [v Hv].
    rewrite Hv. cbn [bind].
    destruct v as [| f]; cbn [as_number bind].
    + intros H. now injection H as <-.
    + apply Hstep.
      exact (frequency_value_positive env _ _ _ _ (Hkind env eq_refl)
               Hbase Hidx Hv).
  - cbn [bind as_number]. apply Hstep. exact Hbase.
Qed.

Lemma sine_value_fails_only_on_none_witness :
  TypeError = TypeError.
Proof.
  apply (sine_value_fails_only_on_none plain_tone 1760 0 PyNone TypeError).
  - intros env H. discriminate.
  - lia.
  - lia.
  - pose proof (frequency_positive plain_tone) as Hf.
    unfold Tone._get_sine_value, Tone._get_frequency.
    cbn [plain_tone Tone.frequency_env bind as_number].
    rewrite float_div_ok by lra. cbn [bind].
    rewrite float_div_ok; [reflexivity |].
    apply Rmult_integral_contrapositive_currified; [| lra].
    unfold Rdiv. rewrite Rmult_1_l. apply Rinv_neq_0_compat. lra.
Defined.

Section AttachPastEnd.

Context {B : Type} `{SoundBuffer B}.

Hypothesis add_sample_length :
  forall (buffer : B) (sample : Z),
    samples_length (add_sample buffer sample) = (samples_length buffer + 1)%Z.

(** From an index at or past the end of the buffer on, the combining
    loop only appends. *)
Lemma combine_loop_past_end (samples : list Z) :
  forall (buffer : B) (index : Z),
    (samples_length buffer <= index)%Z ->
    combine_loop samples buffer index = fold_left add_sample samples buffer.
Proof.
  induction samples as [| sample rest IH]; intros buffer index Hpast.
  - reflexivity.
  - cbn [combine_loop fold_left].
    destruct (Z.ltb_spec index (samples_length buffer)) as [Hlt | _]; [lia |].
    apply IH. rewrite add_sample_length. lia.
Qed.

End AttachPastEnd.

(** X17.  Combining a tone with a sound from a start position at or past the
    end of its samples is adding the tone: whenever [add_sample] makes
    the buffer one sample longer, [combine_tone] leaves the buffer that
    [add_tone] leaves, for every kind of tone. *)
Theorem combine_tone_past_end_is_add_tone
    {T : Type} `{ToneClass T} {B : Type} `{SoundBuffer B}
    (self : T) (sound : Sound.t) (buffer : B) (start_position : R)
    (st : RandomState) :
  (forall (b : B) (sample : Z),
     samples_length (add_sample b sample) = (samples_length b + 1)%Z) ->
  (samples_length buffer
   <= Sound.convert_secs_to_samples sound start_position)%Z ->
  combine_tone self sound buffer start_position st
  = add_tone self sound buffer st.
Proof.
  intros Hlength Hpast. unfold combine_tone, add_tone.
  destruct (__generate self sound st) as [[samples exc] st'].
  now rewrite combine_loop_past_end.
Qed.

Lemma combine_tone_past_end_is_add_tone_witness :
  combine_tone plain_sine sound_8000 ([5; 6]%Z : list Z) 1 (fun _ => 0)
  = add_tone plain_sine sound_8000 ([5; 6]%Z : list Z) (fun _ => 0).
Proof.
  apply (combine_tone_past_end_is_add_tone plain_sine sound_8000
           ([5; 6]%Z : list Z) 1 (fun _ => 0)).
  - intros b sample. cbn [samples_length add_sample list_buffer].
    rewrite length_app. cbn [length]. lia.
  - cbn [samples_length list_buffer length sound_8000
         Sound.convert_secs_to_samples].
    replace (1 * 8000) with (IZR 8000) by lra. rewrite py_int_IZR. lia.
Defined.

(** ** More on filters *)

(** X18.  A filter of the base class cannot process a sample: its
    [_recalculate_coefficients] assigns nothing, so with the coefficient
    attributes still missing [process] raises [AttributeError] where it
    reads [b0], from sample number 0 on and with or without envelope. *)
Theorem base_filter_process_raises
    (self : Filter.t) (orig_sample : Z) (sample_total : R) :
  Filter.coefficients self = None ->
  (0 <= Filter.sample_number self)%Z ->
  Filter.process Filter._recalculate_coefficients self orig_sample sample_total
  = Raise AttributeError.
Proof.
  intros Hnone Hnumber.
  unfold Filter.process, Filter._recalculate_coefficients. cbn [bind].
  destruct (Filter.envelope self) as [env |].
  - destruct (get_value_returns env (Filter.starting_frequency self)
                (Filter.sample_number self) sample_total Hnumber) as [v ->].
    cbn. rewrite Hnone. reflexivity.
  - cbn [bind]. rewrite Hnone. reflexivity.
Qed.

Lemma base_filter_process_raises_witness :
  Filter.process Filter._recalculate_coefficients swept_filter 1000 100
  = Raise AttributeError.
Proof.
  apply (base_filter_process_raises swept_filter 1000 100).
  - reflexivity.
  - simpl. lia.
Defined.

(** Without an envelope, a call of [process] leaves what the
    coefficients are computed from as it found it. *)
Lemma process_keeps_path (self : Filter.t) (x : Z) (sample_total : R)
    (y : Z) (self' : Filter.t) :
  Filter.envelope self = None ->
  Peaking.process self x sample_total = Ok (y, self') ->
  Filter.center_frequency self' = Filter.center_frequency self /\
  Filter.bandwidth self' = Filter.bandwidth self /\
  Filter.gain self' = Filter.gain self /\
  Filter.sampling_rate self' = Filter.sampling_rate self /\
  Filter.envelope self' = None.
Proof.
  intros Henv H.
  apply process_inv in H as (c & _ & _ & Hcf & Hg & Hb & Hr & He & _).
  rewrite Henv in Hcf, He. repeat split; assumption.
Qed.

Lemma process_all_keeps_path (samples : list Z) (sample_total : R) :
  forall (self : Filter.t) (ys : list Z) (self' : Filter.t),
    Filter.envelope self = None ->
    Peaking.process_all self samples sample_total = Ok (ys, self') ->
    Filter.center_frequency self' = Filter.center_frequency self /\
    Filter.bandwidth self' = Filter.bandwidth self /\
    Filter.gain self' = Filter.gain self /\
    Filter.sampling_rate self' = Filter.sampling_rate self /\
    Filter.envelope self' = None.
Proof.
  induction samples as [| x rest IH]; intros self ys self' Henv H.
  - cbn in H. injection H as _ <-. repeat split; try reflexivity. exact Henv.
  - cbn [Peaking.process_all] in H.
    apply bind_ok_inv in H as ([y self1] & Hstep & H).
    apply bind_ok_inv in H as ([ys' self2] & Hrest & H).
    injection H as _ <-.
    apply (process_keeps_path _ _ _ _ _ Henv) in Hstep
      as (Hc1 & Hb1 & Hg1 & Hr1 & He1).
    destruct (IH self1 ys' self2 He1 Hrest) as (Hc2 & Hb2 & Hg2 & Hr2 & He2).
    repeat split; try congruence.
Qed.

(** Two filters on the same signal path take the same step. *)
Lemma process_same_path (f g : Filter.t) (x : Z) (sample_total : R) :
  same_signal_path f g ->
  match Peaking.process f x sample_total, Peaking.process g x sample_total with
  | Ok (y1, f'), Ok (y2, g') => y1 = y2 /\ same_signal_path f' g'
  | Raise e1, Raise e2 => e1 = e2
  | _, _ => False
  end.
Proof.
  intros (Hc & Hb & Hg & Hr & Hm & Hef & Heg).
  unfold Peaking.process, Filter.process, Peaking._recalculate_coefficients.
  rewrite (peaking_coefficients_ext f g Hc Hb Hg Hr).
  destruct (Peaking.peaking_coefficients g) as [c | e]; [| reflexivity].
  cbn [bind Filter.envelope Filter.set_coefficients].
  rewrite Hef, Heg.
  cbn -[py_int]. rewrite Hm. split; [reflexivity |].
  unfold same_signal_path. cbn -[py_int]. repeat split; assumption.
Qed.

Lemma process_all_same_path (samples : list Z) (sample_total : R) :
  forall f g : Filter.t,
    same_signal_path f g ->
    outputs (Peaking.process_all f samples sample_total)
    = outputs (Peaking.process_all g samples sample_total).
Proof.
  induction samples as [| x rest IH]; intros f g Hpath.
  - reflexivity.
  - cbn [Peaking.process_all].
    pose proof (process_same_path f g x sample_total Hpath) as Hstep.
    destruct (Peaking.process f x sample_total) as [[y1 f'] | e1];
      destruct (Peaking.process g x sample_total) as [[y2 g'] | e2];
      try contradiction.
    + destruct Hstep as [<- Hpath']. cbn [bind].
      specialize (IH f' g' Hpath').
      destruct (Peaking.process_all f' rest sample_total) as [[ys1 f1] | e1];
        destruct (Peaking.process_all g' rest sample_total) as [[ys2 g1] | e2];
        cbn in *; congruence.
    + cbn. now rewrite Hstep.
Qed.

(** X21.  Resetting the memory restarts a filter that has no envelope: after
    any run that returned, [reset_memory] leaves a filter that answers
    every further stream as the freshly constructed filter does, with
    the same samples or the same exception. *)
Theorem reset_memory_restarts_filter
    (sound : Sound.t) (starting_frequency bandwidth : R) (gain : pynumber)
    (before samples : list Z) (sample_total : R)
    (ys : list Z) (self' : Filter.t) :
  Peaking.process_all
    (Filter.__init__ sound starting_frequency bandwidth gain None)
    before sample_total = Ok (ys, self') ->
  outputs (Peaking.process_all (Filter.reset_memory self') samples sample_total)
  = outputs (Peaking.process_all
               (Filter.__init__ sound starting_frequency bandwidth gain None)
               samples sample_total).
Proof.
  intros Hrun.
  apply process_all_keeps_path in Hrun as (Hc & Hb & Hg & Hr & He);
    [| reflexivity].
  apply process_all_same_path.
  unfold same_signal_path. cbn. repeat split; assumption.
Qed.

Lemma reset_memory_restarts_filter_witness :
  exists ys self',
    Peaking.process_all plain_filter [3; -5; 7]%Z 100 = Ok (ys, self') /\
    outputs (Peaking.process_all (Filter.reset_memory self') [1; 2]%Z 100)
    = outputs (Peaking.process_all plain_filter [1; 2]%Z 100).
Proof.
  destruct plain_filter_coefficients as [c Hc].
  destruct (process_all_without_envelope [3; -5; 7]%Z 100 plain_filter c
              eq_refl Hc) as (ys & self' & Hrun).
  exists ys, self'. split; [exact Hrun |].
  apply (reset_memory_restarts_filter sound_8000 2000 1 (PyInt 0)
           [3; -5; 7]%Z [1; 2]%Z 100 ys self').
  exact Hrun.
Defined.

Lemma last_cons {A : Type} (x : A) (rest : list A) (d : A) :
  last (x :: rest) d = last rest x.
Proof.
  revert x d. induction rest as [| r rest IH]; intros x d; [reflexivity |].
  change (last (x :: r :: rest) d) with (last (r :: rest) d).
  now rewrite (IH r d), (IH r x).
Qed.

(** X22.  The bookkeeping of a run that returns: one output per input, the
    sample number advanced by the number of samples, and the delay
    memory holding the last input and the last output (what it held
    before, when the stream was empty). *)
Theorem process_all_bookkeeping (samples : list Z) (sample_total : R) :
  forall (self : Filter.t) (ys : list Z) (self' : Filter.t),
    Peaking.process_all self samples sample_total = Ok (ys, self') ->
    length ys = length samples /\
    Filter.sample_number self'
      = (Filter.sample_number self + Z.of_nat (length samples))%Z /\
    Filter.previous_input (Filter.memory self')
      = last samples (Filter.previous_input (Filter.memory self)) /\
    Filter.previous_output (Filter.memory self')
      = last ys (Filter.previous_output (Filter.memory self)).
Proof.
  induction samples as [| x rest IH]; intros self ys self' H.
  - cbn in H. injection H as <- <-. cbn. repeat split; lia.
  - cbn [Peaking.process_all] in H.
    apply bind_ok_inv in H as ([y self1] & Hstep & H).
    apply bind_ok_inv in H as ([ys' self2] & Hrest & H).
    injection H as <- <-.
    apply process_inv in Hstep
      as (c & _ & _ & _ & _ & _ & _ & _ & Hn & Hmem & _).
    destruct (IH self1 ys' self2 Hrest) as (Hlen & Hnum & Hin & Hout).
    rewrite Hmem in Hin, Hout. cbn in Hin, Hout.
    rewrite !last_cons. cbn [length].
    repeat split; try assumption; lia.
Qed.

Lemma process_all_bookkeeping_witness :
  exists ys self',
    Peaking.process_all plain_filter [3; -5; 7]%Z 100 = Ok (ys, self') /\
    length ys = 3%nat /\
    Filter.sample_number self' = 3%Z /\
    Filter.previous_input (Filter.memory self') = 7%Z /\
    Filter.previous_output (Filter.memory self') = last ys 0%Z.
Proof.
  destruct plain_filter_coefficients as [c Hc].
  destruct (process_all_without_envelope [3; -5; 7]%Z 100 plain_filter c
              eq_refl Hc) as (ys & self' & Hrun).
  exists ys, self'. split; [exact Hrun |].
  exact (process_all_bookkeeping [3; -5; 7]%Z 100 plain_filter ys self' Hrun).
Defined.

(** ** Boundaries in doubles, zeroed memory and int gains *)

(** C10 as stated fails in the code's own arithmetic.  For proportions
    0.3, 0.3, 0.3, 0.1 and 7 samples the release end as the claim writes
    it is not above 7, but [get_phase] adds four rounded products and
    gets 7.0000000000000009: index 7 is still in the release phase and
    [get_value] returns a number, not [None]. *)
Lemma release_end_rounds_above_index :
  PrimFloat.leb
    (Binary64.claimed_release_end Binary64.envelope_3_3_3_1
       (Binary64.of_int 7))
    (Binary64.of_int 7) = true /\
  Binary64.get_phase Binary64.envelope_3_3_3_1 7 (Binary64.of_int 7)
    = Some EnvelopePhase.release /\
  forall pow,
    Binary64.get_value pow Binary64.envelope_3_3_3_1 (Binary64.of_int 100) 7
      (Binary64.of_int 7)
    = Ok (Some Binary64.release_residue).
Proof.
  repeat split; intros; vm_compute; reflexivity.
Qed.

(** C10, as the code has it.  For an envelope of the data model
    (proportions in [0, 1]) and a sample count from 0 to 2^40, at any
    sample index at least one whole sample past release_end = (attack +
    decay + sustain_length + release) * number_of_samples, [get_phase]
    selects no phase and [get_value] returns [None].  (Within such a
    count the rounding of the boundaries is far below one sample; at the
    boundary itself the code's release end may be rounded up.) *)
Theorem get_value_one_sample_past_release_end
    (self : Envelope.t) (default_value : R) (sample_index : Z)
    (number_of_samples : R) :
  Envelope.well_formed self ->
  0 <= number_of_samples <= 2 ^ 40 ->
  (Envelope.attack_length self + Envelope.decay_length self +
     Envelope.sustain_length self + Envelope.release_length self)
    * number_of_samples + 1 <= IZR sample_index ->
  Envelope.get_phase self sample_index number_of_samples = None /\
  Envelope.get_value self default_value sample_index number_of_samples
    = Ok PyNone.
Proof.
  intros Hwf [Htotal _] Hpast.
  assert (Hend : release_end self number_of_samples <= IZR sample_index)
    by (unfold_ends; lra).
  split; [| exact (get_value_past_end self default_value sample_index
                     number_of_samples Hwf Htotal Hend)].
  destruct Hwf as ([Ha _] & [Hd _] & [Hs _] & [Hr _]).
  pose proof (Rmult_le_pos _ _ Ha Htotal) as Ha'.
  pose proof (Rmult_le_pos _ _ Hd Htotal) as Hd'.
  pose proof (Rmult_le_pos _ _ Hs Htotal) as Hs'.
  pose proof (Rmult_le_pos _ _ Hr Htotal) as Hr'.
  destruct (get_phase_cases self number_of_samples sample_index)
    as [[H _] | [[H _] | [(_ & H & _) | [(_ & _ & H & _) | (_ & _ & _ & _ & E)]]]];
    cbv zeta in *; unfold_ends; try exact E; exfalso; lra.
Qed.

Lemma get_value_one_sample_past_release_end_witness :
  Envelope.get_phase envelope_without_attack 9 8 = None /\
  Envelope.get_value envelope_without_attack 100 9 8 = Ok PyNone.
Proof.
  apply (get_value_one_sample_past_release_end envelope_without_attack 100 9 8).
  - unfold Envelope.well_formed; simpl. lra.
  - simpl. lra.
  - simpl. lra.
Defined.

Lemma process_without_envelope_ok (self : Filter.t) (x : Z) (sample_total : R)
    (c : Filter.Coefficients) :
  Filter.envelope self = None ->
  Peaking.peaking_coefficients self = Ok c ->
  exists y self', Peaking.process self x sample_total = Ok (y, self').
Proof.
  intros Henv Hc.
  unfold Peaking.process, Filter.process, Peaking._recalculate_coefficients.
  rewrite Hc. cbn [bind Filter.envelope Filter.set_coefficients].
  rewrite Henv. cbn. eauto.
Qed.

(** C6, as the code has it.  For every peaking filter with a gain of 0
    and any bandwidth, a call of [process] on zeroed delay memory that
    returns returns its input sample (an int of magnitude up to 2^53)
    unchanged, at any sample number and with or without envelope, and
    the coefficients it leaves are b0 = 1, b1 = a1, b2 = a2.  The sum
    is then the input plus four products by 0, so nothing is left to
    rounding. *)
Theorem peaking_zero_gain_passes_sample_on_zeroed_memory
    (self : Filter.t) (orig_sample : Z) (sample_total : R)
    (new_sample : Z) (self' : Filter.t) :
  zero_gain (Filter.gain self) ->
  Filter.memory self = zero_memory ->
  (Z.abs orig_sample <= 2 ^ 53)%Z ->
  Peaking.process self orig_sample sample_total = Ok (new_sample, self') ->
  new_sample = orig_sample /\
  exists c,
    Filter.coefficients self' = Some c /\
    Filter.b0 c = 1 /\ Filter.b1 c = Filter.a1 c /\ Filter.b2 c = Filter.a2 c.
Proof.
  intros Hgain Hmem _ H.
  apply process_inv in H
    as (c & Hc & Hstored & _ & _ & _ & _ & _ & _ & _ & Hy).
  apply peaking_coefficients_inv in Hc as (w & _ & _ & Ha0 & Hform).
  rewrite (A_zero_gain self Hgain) in Hform. subst c.
  destruct (peaking_formula_unity w (Filter.bandwidth self) Ha0)
    as (Hb0 & Hb1 & Hb2).
  split.
  - rewrite Hy, Hmem, Hb0. cbn [zero_memory Filter.previous_input
      Filter.second_previous_input Filter.previous_output
      Filter.second_previous_output].
    rewrite <- (py_int_IZR orig_sample) at 2. f_equal. ring.
  - eexists. split; [exact Hstored |]. repeat split; assumption.
Qed.

Lemma peaking_zero_gain_passes_sample_on_zeroed_memory_witness :
  exists self' c,
    Peaking.process plain_filter 1000 100 = Ok (1000%Z, self') /\
    Filter.coefficients self' = Some c /\
    Filter.b0 c = 1 /\ Filter.b1 c = Filter.a1 c /\ Filter.b2 c = Filter.a2 c.
Proof.
  destruct plain_filter_coefficients as [c0 Hc0].
  destruct (process_without_envelope_ok plain_filter 1000 100 c0 eq_refl Hc0)
    as (y & self' & Hrun).
  destruct (peaking_zero_gain_passes_sample_on_zeroed_memory
              plain_filter 1000 100 y self')
    as (Hy & c & Hstored & Hb); [left; reflexivity | reflexivity | lia
                                | exact Hrun |].
  subst y. exists self', c.
  split; [exact Hrun |]. split; [exact Hstored | exact Hb].
Defined.

(** X15.  A sine tone whose amplitude envelope (proportions in [0, 1],
    on a sample count from 0 to 2^40) ends before the sound does cannot
    make a sample at an index at least one whole sample past the
    envelope's release end: there the envelope gives [None] and the call
    raises. *)
Theorem sine_past_amplitude_envelope_raises
    (self : SineTone.t) (env : Envelope.t) (sampling_rate sample_index : Z)
    (previous_phase : pyobj) :
  Tone.amplitude_env (SineTone.tone self) = Some env ->
  Envelope.well_formed env ->
  0 <= Tone.seconds (SineTone.tone self) * IZR sampling_rate <= 2 ^ 40 ->
  release_end env (Tone.seconds (SineTone.tone self) * IZR sampling_rate) + 1
    <= IZR sample_index ->
  exists e,
    SineTone._create_sample self sampling_rate sample_index previous_phase
    = Raise e.
Proof.
  intros Henv Hwf [Htotal _] Hpast.
  assert (Hend :
    release_end env (Tone.seconds (SineTone.tone self) * IZR sampling_rate)
    <= IZR sample_index) by lra.
  unfold SineTone._create_sample, Tone._get_amplitude. rewrite Henv.
  rewrite (get_value_past_end env _ _ _ Hwf Htotal Hend). cbn [bind].
  destruct (Tone._get_sine_value (SineTone.tone self) sampling_rate
              sample_index previous_phase) as [[sine_value phase] | e].
  - exists TypeError. reflexivity.
  - exists e. reflexivity.
Qed.

Lemma sine_past_amplitude_envelope_raises_witness :
  exists e,
    SineTone._create_sample
      {| SineTone.tone :=
           {| Tone.note := 0; Tone.amplitude := 100; Tone.seconds := 1;
              Tone.amplitude_env := Some short_amplitude_env;
              Tone.frequency_env := None |} |} 8 5 (PyNum 0)
    = Raise e.
Proof.
  apply (sine_past_amplitude_envelope_raises
           {| SineTone.tone :=
                {| Tone.note := 0; Tone.amplitude := 100; Tone.seconds := 1;
                   Tone.amplitude_env := Some short_amplitude_env;
                   Tone.frequency_env := None |} |}
           short_amplitude_env 8 5 (PyNum 0)).
  - reflexivity.
  - unfold Envelope.well_formed. simpl. lra.
  - simpl. lra.
  - unfold_ends. simpl. lra.
Defined.

(** The coefficients depend on the gain only through [A]. *)
Lemma peaking_coefficients_ext_A (f g : Filter.t) :
  Filter.center_frequency f = Filter.center_frequency g ->
  Filter.bandwidth f = Filter.bandwidth g ->
  Filter.A f = Filter.A g ->
  Filter.sampling_rate f = Filter.sampling_rate g ->
  Peaking.peaking_coefficients f = Peaking.peaking_coefficients g.
Proof.
  intros Hc Hb HA Hr.
  unfold Peaking.peaking_coefficients, Filter.alpha, Filter.w0_cosine,
    Filter.w0_sine, Filter.w0.
  now rewrite Hc, Hb, HA, Hr.
Qed.

(** Two filters with the same response take the same step. *)
Lemma process_same_response (f g : Filter.t) (x : Z) (sample_total : R) :
  same_response f g ->
  match Peaking.process f x sample_total, Peaking.process g x sample_total with
  | Ok (y1, f'), Ok (y2, g') => y1 = y2 /\ same_response f' g'
  | Raise e1, Raise e2 => e1 = e2
  | _, _ => False
  end.
Proof.
  intros (Hc & Hb & HA & Hr & Hsf & He & Hn & Hm).
  unfold Peaking.process, Filter.process, Peaking._recalculate_coefficients.
  rewrite (peaking_coefficients_ext_A f g Hc Hb HA Hr).
  destruct (Peaking.peaking_coefficients g) as [c | e]; [| reflexivity].
  cbn [bind Filter.envelope Filter.set_coefficients
       Filter.starting_frequency Filter.sample_number].
  rewrite He, Hsf, Hn.
  destruct (Filter.envelope g) as [env |] eqn:Heg.
  - destruct (Envelope.get_value env (Filter.starting_frequency g)
                (Filter.sample_number g) sample_total) as [v | e];
      [| reflexivity].
    cbn -[py_int Filter.A]. rewrite Hm. split; [reflexivity |].
    unfold same_response. cbn -[py_int Filter.A].
    repeat split; try assumption; try reflexivity;
      try exact HA; congruence.
  - cbn -[py_int Filter.A]. rewrite Hm. split; [reflexivity |].
    unfold same_response. cbn -[py_int Filter.A].
    repeat split; try assumption; try reflexivity;
      try exact HA; congruence.
Qed.

Lemma process_all_same_response (samples : list Z) (sample_total : R) :
  forall f g : Filter.t,
    same_response f g ->
    outputs (Peaking.process_all f samples sample_total)
    = outputs (Peaking.process_all g samples sample_total).
Proof.
  induction samples as [| x rest IH]; intros f g Hsame.
  - reflexivity.
  - cbn [Peaking.process_all].
    pose proof (process_same_response f g x sample_total Hsame) as Hstep.
    destruct (Peaking.process f x sample_total) as [[y1 f'] | e1];
      destruct (Peaking.process g x sample_total) as [[y2 g'] | e2];
      try contradiction.
    + destruct Hstep as [<- Hsame']. cbn [bind].
      specialize (IH f' g' Hsame').
      destruct (Peaking.process_all f' rest sample_total) as [[ys1 f1] | e1];
        destruct (Peaking.process_all g' rest sample_total) as [[ys2 g1] | e2];
        cbn in *; congruence.
    + cbn. now rewrite Hstep.
Qed.

(** X19.  An int gain acts as its floor to a multiple of 40 dB.  The
    gain is divided by 40 before it is converted to a float, and between
    ints the division floors: two peaking filters constructed alike but
    for int gains with the same quotient by 40 (6 and 0, say) answer
    every stream alike, with the same samples or the same exception. *)
Theorem int_gain_acts_as_its_floor
    (sound : Sound.t) (starting_frequency bandwidth : R) (n m : Z)
    (envelope : option Envelope.t) (samples : list Z) (sample_total : R) :
  (n / 40 = m / 40)%Z ->
  outputs (Peaking.process_all
             (Filter.__init__ sound starting_frequency bandwidth (PyInt n)
                envelope) samples sample_total)
  = outputs (Peaking.process_all
               (Filter.__init__ sound starting_frequency bandwidth (PyInt m)
                  envelope) samples sample_total).
Proof.
  intros Hquot. apply process_all_same_response.
  unfold same_response. cbn -[Filter.A].
  repeat split; try reflexivity.
  unfold Filter.A. cbn. now rewrite Hquot.
Qed.

Lemma int_gain_acts_as_its_floor_witness :
  outputs (Peaking.process_all
             (Filter.__init__ sound_8000 2000 1 (PyInt 6) None)
             [3; -5; 7]%Z 100)
  = outputs (Peaking.process_all
               (Filter.__init__ sound_8000 2000 1 (PyInt 0) None)
               [3; -5; 7]%Z 100).
Proof.
  apply (int_gain_acts_as_its_floor sound_8000 2000 1 6 0 None
           [3; -5; 7]%Z 100).
  reflexivity.
Defined.

Lemma process_silence (self : Filter.t) (sample_total : R)
    (new_sample : Z) (self' : Filter.t) :
  memory_constant 0 (Filter.memory self) ->
  Peaking.process self 0 sample_total = Ok (new_sample, self') ->
  new_sample = 0%Z /\ memory_constant 0 (Filter.memory self').
Proof.
  intros (Hm1 & Hm2 & Hm3 & Hm4) H.
  apply process_inv in H
    as (c & _ & _ & _ & _ & _ & _ & _ & _ & Hmem & Hy).
  assert (Hzero : new_sample = 0%Z).
  { rewrite Hy, Hm1, Hm2, Hm3, Hm4.
    transitivity (py_int (IZR 0)); [f_equal; ring | apply py_int_IZR]. }
  split; [exact Hzero |].
  rewrite Hmem, Hzero. unfold memory_constant. cbn.
  repeat split; assumption.
Qed.

(** X20.  Silence stays silence at any gain and bandwidth, with or
    without envelope: from a delay memory whose four slots are 0,
    whatever a run over samples that are all 0 returns is all 0.  Every
    term of the sum is then a product by 0. *)
Theorem silence_passes_unchanged (count : nat) (sample_total : R) :
  forall (self : Filter.t) (ys : list Z) (self' : Filter.t),
    memory_constant 0 (Filter.memory self) ->
    Peaking.process_all self (repeat 0%Z count) sample_total = Ok (ys, self') ->
    ys = repeat 0%Z count.
Proof.
  induction count as [| count IH]; intros self ys self' Hmem H.
  - cbn in H. now injection H as <- _.
  - cbn [repeat Peaking.process_all] in H.
    apply bind_ok_inv in H as ([y self1] & Hstep & H).
    apply bind_ok_inv in H as ([ys' self2] & Hrest & H).
    injection H as <- _.
    apply (process_silence _ _ _ _ Hmem) in Hstep as (-> & Hmem1).
    cbn [repeat]. f_equal. exact (IH self1 ys' self2 Hmem1 Hrest).
Qed.

Lemma silence_passes_unchanged_witness :
  exists self',
    Peaking.process_all
      (Filter.__init__ sound_8000 2000 1 (PyFloat 12) None)
      (repeat 0%Z 3) 100 = Ok (repeat 0%Z 3, self').
Proof.
  destruct (peaking_coefficients_below_nyquist
              (Filter.__init__ sound_8000 2000 1 (PyFloat 12) None) 2000)
    as [c Hc]; [reflexivity | lra | simpl; lra | simpl; lra |].
  destruct (process_all_without_envelope (repeat 0%Z 3) 100
              (Filter.__init__ sound_8000 2000 1 (PyFloat 12) None) c
              eq_refl Hc) as (ys & self' & Hrun).
  exists self'. rewrite Hrun. f_equal. f_equal.
  apply (silence_passes_unchanged 3 100
           (Filter.__init__ sound_8000 2000 1 (PyFloat 12) None) ys self').
  - unfold memory_constant. cbn. repeat split; reflexivity.
  - exact Hrun.
Defined.
